(** * Pmo-prototipo: the dashboard's classifiers and view state machines

    A shallow embedding of the React components under
    [frontend/src/components] (ResultsDashboard, HistoryDetail, History,
    CrossCheckView, PriorityBatchView, ProjectScorer) together with the
    scoring contract the views consume.

    Conventions of the embedding:
    - a JavaScript function is a Rocq function into [completion]: it either
      returns a value or throws an error of some kind;
    - a component's [useState] cells are the fields of a record, and an
      event handler is a function on that record; the part of an [async]
      handler before its [await] and the part after it are two separate
      steps, because other events may run in between;
    - scores and slider values are integers, as the data contract has them;
    - strings are byte strings; [toLowerCase] folds the ASCII letters: the
      recognised labels and extensions are made of those, and no other
      character lower-cases to one of their letters;
    - request paths are written without the [API_URL] prefix. *)

From Stdlib Require Import ZArith String Ascii List Bool Lia.
From stdpp Require Import base option list strings gmap sorting.
Import ListNotations.

Local Open Scope Z_scope.
Local Open Scope string_scope.

(** ** JavaScript values and completions *)

Module Js.

(** The values a loosely typed field of a response can hold. *)
Inductive jsValue : Type :=
| VUndefined
| VNull
| VStr (s : string)
| VNum (n : Z).

(** How a call ends: [return v] or [throw] of an error of kind [kind]. *)
Inductive completion (A : Type) : Type :=
| Return (a : A)
| Throw (kind : string).
Arguments Return {A} a.
Arguments Throw {A} kind.

Definition bind {A B} (c : completion A) (k : A -> completion B) : completion B :=
  match c with
  | Return a => k a
  | Throw kind => Throw kind
  end.

(** [String.prototype.toLowerCase] on one ASCII character. The builtin
    also folds letters outside ASCII, some by their context; this embedding
    leaves them alone, so it is the builtin on ASCII strings only. *)
Definition lowerAscii (c : ascii) : ascii :=
  let n := nat_of_ascii c in
  if ((65 <=? n)%nat && (n <=? 90)%nat)%bool then ascii_of_nat (n + 32) else c.

Fixpoint toLowerCase (s : string) : string :=
  match s with
  | EmptyString => EmptyString
  | String c rest => String (lowerAscii c) (toLowerCase rest)
  end.

(** [v?.toLowerCase()]: short-circuits to [undefined] on a nullish
    receiver; a number has no such method, so the call throws. *)
Definition optToLowerCase (v : jsValue) : completion jsValue :=
  match v with
  | VUndefined | VNull => Return VUndefined
  | VStr s => Return (VStr (toLowerCase s))
  | VNum _ => Throw "TypeError"
  end.

(** Truthiness, as [||] and [!] test it. *)
Definition truthy (v : jsValue) : bool :=
  match v with
  | VUndefined | VNull => false
  | VStr s => negb (String.eqb s "")
  | VNum n => negb (n =? 0)%Z
  end.

(** [a || b] *)
Definition or (a b : jsValue) : jsValue := if truthy a then a else b.

(** [v === 'lit'] *)
Definition strictEqStr (v : jsValue) (lit : string) : bool :=
  match v with
  | VStr s => String.eqb s lit
  | _ => false
  end.

(** [name.split(sep)]: the segments between the separators; never an
    empty array. *)
Fixpoint split (sep : ascii) (s : string) : list string :=
  match s with
  | EmptyString => [EmptyString]
  | String c rest =>
      if Ascii.eqb c sep then EmptyString :: split sep rest
      else match split sep rest with
           | seg :: segs => String c seg :: segs
           | [] => [String c EmptyString]
           end
  end.

(** [arr.pop()]: the last element, [undefined] on an empty array. *)
Definition pop (arr : list string) : option string := last arr.

(** Which values are severity labels: a string, or a missing one. *)
Definition isLabel (v : jsValue) : bool :=
  match v with
  | VUndefined | VNull | VStr _ => true
  | VNum _ => false
  end.

End Js.
Import Js.

Notation "'let!' x ':=' c 'in' k" := (Js.bind c (fun x => k))
  (at level 10, x name, c at level 100, k at level 200).

(** ** Files and failed requests *)

(** A browser [File]: [file.name] and [file.size]. *)
Record File : Type := mkFile {
  fileName : string;
  fileSize : Z
}.

(** [file.name.split('.').pop().toLowerCase()]; [split] never returns an
    empty array, so [pop] always finds a segment. *)
Definition extensionOf (f : File) : string :=
  match pop (split "." (fileName f)) with
  | Some seg => toLowerCase seg
  | None => ""
  end.

(** The error object a rejected request is caught with: [err.response] is
    missing when the service was not reached, and [err.response.data] is the
    body of the error response. *)
Record ErrorBody : Type := mkBody { detail : jsValue }.
Record ErrorResponse : Type := mkResponse { data : option ErrorBody }.
Record AxiosError : Type := mkError {
  response : option ErrorResponse;
  message : jsValue
}.

(** [err.response?.data?.detail] *)
Definition detailOf (err : AxiosError) : jsValue :=
  match response err with
  | None => VUndefined
  | Some r => match data r with
              | None => VUndefined
              | Some b => detail b
              end
  end.

(** [{error && <p>{error}</p>}]: the message a view shows, if any. *)
Definition displayedError (error : jsValue) : option jsValue :=
  if truthy error then Some error else None.

(** How an awaited request ends. *)
Inductive Reply (D : Type) : Type :=
| Resolved (body : D)
| Rejected (err : AxiosError).
Arguments Resolved {D} body.
Arguments Rejected {D} err.

(** ** The scoring data contract, as the views read it *)

Module Api.

Record BreakdownEntry : Type := mkEntry {
value : Z;
contribution : Z
}.

Record PriorityResult : Type := mkPriorityResult {
score : Z;
tier : string;
tier_color : string;
breakdown : list (string * BreakdownEntry);
recommendation : string
}.

Record ProjectResult : Type := mkProjectResult {
id : string;
name : string;
area : string;
sponsor : string;
priority : PriorityResult
}.

Record BatchResult : Type := mkBatchResult {
total_projects : Z;
results : list ProjectResult
}.

Definition projectScore (p : ProjectResult) : Z := score (priority p).

(** The cross-check response. [severity] is read as it comes; the views
    classify it when they draw the entry. *)
Record Discrepancy : Type := mkDiscrepancy {
  severity : jsValue;
  type : jsValue;
  description : jsValue;
  excel_value : jsValue;
  pptx_value : jsValue
}.

Record AnalysisResult : Type := mkAnalysisResult {
  discrepancies : list Discrepancy;
  summary : string;
  match_score : Z
}.

End Api.
Import Api.

(** ** Severity styles (ResultsDashboard.jsx, HistoryDetail.jsx) *)

Inductive Icon : Type := AlertTriangle | Info.

Record SeverityStyles : Type := mkStyles {
  bg : string;
  border : string;
  badge : string;
  icon : Icon;
  iconColor : string
}.

(** [{guard && <element/>}]: the element when the guard is truthy, and
    otherwise the guard itself, which React draws as nothing unless it is a
    number. *)
Inductive Slot (A : Type) : Type :=
| Drawn (element : A)
| Skipped (guard : jsValue).
Arguments Drawn {A} element.
Arguments Skipped {A} guard.

Definition jsxAnd {A} (guard : jsValue) (element : A) : Slot A :=
  if truthy guard then Drawn element else Skipped guard.

Definition isDrawn {A} (slot : Slot A) : bool :=
  match slot with
  | Drawn _ => true
  | Skipped _ => false
  end.

(** The paired values of a discrepancy card: the box of the spreadsheet
    value and the box of the slide value, inside their grid. *)
Record ValueGrid : Type := mkGrid {
  excelBox : Slot jsValue;
  pptxBox : Slot jsValue
}.

(** One discrepancy card: the style it is drawn with, the severity and the
    type printed on its badges, its description, and the grid of paired
    values (the recommendation line is not part of this record). *)
Record Card : Type := mkCard {
  cardStyles : SeverityStyles;
  cardSeverity : jsValue;
  cardType : jsValue;
  cardDescription : jsValue;
  cardValues : Slot ValueGrid
}.

(** The part of the card that both views draw alike:
    [(item.excel_value || item.pptx_value) && (<div> {item.excel_value &&
    ...} {item.pptx_value && ...} </div>)]. *)
Definition valuesOf (item : Discrepancy) : Slot ValueGrid :=
  jsxAnd (Js.or (excel_value item) (pptx_value item))
    (mkGrid (jsxAnd (excel_value item) (excel_value item))
            (jsxAnd (pptx_value item) (pptx_value item))).

(** [items.map(callback)] for a callback that may throw: the first throw
    ends the whole map. *)
Fixpoint mapThrowing {A B} (callback : A -> completion B) (items : list A)
  : completion (list B) :=
  match items with
  | [] => Return []
  | item :: rest =>
      let! drawn := callback item in
      let! others := mapThrowing callback rest in
      Return (drawn :: others)
  end.

Module ResultsDashboard.

Definition getSeverityStyles (severity : jsValue) : completion SeverityStyles :=
  let! lowered := optToLowerCase severity in
  let normalizedSeverity := Js.or lowered (VStr "") in
  if (strictEqStr normalizedSeverity "high" || strictEqStr normalizedSeverity "alta")%bool then
    Return {| bg := "bg-red-600/20";
              border := "border-red-600/30";
              badge := "bg-red-600 text-white";
              icon := AlertTriangle;
              iconColor := "text-red-400" |}
  else if (strictEqStr normalizedSeverity "medium" || strictEqStr normalizedSeverity "media")%bool then
    Return {| bg := "bg-yellow-600/20";
              border := "border-yellow-600/30";
              badge := "bg-yellow-600 text-white";
              icon := AlertTriangle;
              iconColor := "text-yellow-400" |}
  else
    Return {| bg := "bg-blue-600/20";
              border := "border-blue-600/30";
              badge := "bg-blue-600 text-white";
              icon := Info;
              iconColor := "text-blue-400" |}.

(** The match-score colour: a different scale from the priority tiers
    (a high match is good, so it is green). *)
Definition getScoreColor (score : Z) : completion string :=
  if (score >=? 80)%Z then Return "text-green-400"
  else if (score >=? 60)%Z then Return "text-yellow-400"
  else if (score >=? 40)%Z then Return "text-orange-400"
  else Return "text-red-400".

Definition getScoreBg (score : Z) : completion string :=
  if (score >=? 80)%Z then Return "from-green-600/20 to-green-600/5"
  else if (score >=? 60)%Z then Return "from-yellow-600/20 to-yellow-600/5"
  else if (score >=? 40)%Z then Return "from-orange-600/20 to-orange-600/5"
  else Return "from-red-600/20 to-red-600/5".

(** The callback of [discrepancies.map((item, index) => ...)]. *)
Definition renderCard (item : Discrepancy) : completion Card :=
  let! styles := getSeverityStyles (severity item) in
  Return (mkCard styles (severity item) (type item) (description item) (valuesOf item)).

(** The discrepancy panel: the number on the "problema(s)" badge and the
    cards under it (no card: the "no discrepancies" notice).
    [discrepancies] is [None] when the response has no such field; the
    badge reads [discrepancies.length] unguarded. *)
Definition renderDiscrepancies (discrepancies : option (list Discrepancy))
  : completion (Z * list Card) :=
  match discrepancies with
  | None => Throw "TypeError"
  | Some items =>
      let! cards := mapThrowing renderCard items in
      Return (Z.of_nat (length items), cards)
  end.

End ResultsDashboard.

Module HistoryDetail.

Definition getSeverityStyles (severity : jsValue) : completion SeverityStyles :=
  let! lowered := optToLowerCase severity in
  let normalizedSeverity := Js.or lowered (VStr "") in
  if (strictEqStr normalizedSeverity "high" || strictEqStr normalizedSeverity "alta")%bool then
    Return {| bg := "bg-red-600/20";
              border := "border-red-600/30";
              badge := "bg-red-600 text-white";
              icon := AlertTriangle;
              iconColor := "text-red-400" |}
  else if (strictEqStr normalizedSeverity "medium" || strictEqStr normalizedSeverity "media")%bool then
    Return {| bg := "bg-yellow-600/20";
              border := "border-yellow-600/30";
              badge := "bg-yellow-600 text-white";
              icon := AlertTriangle;
              iconColor := "text-yellow-400" |}
  else
    Return {| bg := "bg-blue-600/20";
              border := "border-blue-600/30";
              badge := "bg-blue-600 text-white";
              icon := Info;
              iconColor := "text-blue-400" |}.

Definition getScoreColor (score : Z) : completion string :=
  if (score >=? 80)%Z then Return "text-red-400"
  else if (score >=? 60)%Z then Return "text-orange-400"
  else if (score >=? 40)%Z then Return "text-yellow-400"
  else Return "text-green-400".

Record State : Type := mkState {
  data : option (AnalysisResult + BatchResult);
  isLoading : bool;
  error : jsValue
}.

Definition initial : State := mkState None true VNull.


(** [fetchDetail] up to its [await]. *)
Definition fetchDetailStart (st : State) : State :=
  mkState (data st) true VNull.


(** The callback of [data.discrepancies.map((item, index) => ...)] in
    [CrossCheckDetail]. *)
Definition renderCard (item : Discrepancy) : completion Card :=
  let! styles := getSeverityStyles (severity item) in
  Return (mkCard styles (severity item) (type item) (description item) (valuesOf item)).

(** The discrepancy panel of [CrossCheckDetail]: the badge reads
    [data.discrepancies?.length || 0], and the notice is drawn when
    [!data.discrepancies || data.discrepancies.length === 0]. *)
Definition renderDiscrepancies (discrepancies : option (list Discrepancy))
  : completion (Z * list Card) :=
  match discrepancies with
  | None => Return (0%Z, [])
  | Some [] => Return (0%Z, [])
  | Some items =>
      let! cards := mapThrowing renderCard items in
      Return (Z.of_nat (length items), cards)
  end.

End HistoryDetail.

(** ** History.jsx *)

Module History.

Record HistoryRecord : Type := mkRecord {
  recordId : Z;
  analysis_date : string;
  status : string
}.

Record State : Type := mkState {
  crosscheckRecords : list HistoryRecord;
  priorityRecords : list HistoryRecord;
  isLoading : bool;
  error : jsValue
}.

Definition initial : State := mkState [] [] true VNull.

Definition historyMessage : string :=
  "Error al cargar historial. Asegúrate de que el backend esté corriendo.".

(** [fetchHistory] up to its [await]. *)
Definition fetchHistoryStart (st : State) : State :=
  mkState (crosscheckRecords st) (priorityRecords st) true VNull.

(** [fetchHistory] after its [await Promise.all([...])]: both lists on
    success; on a failure of either request the fixed message, whatever the
    error carries. *)
Definition fetchHistorySettle
    (reply : Reply (list HistoryRecord * list HistoryRecord)) (st : State) : State :=
  match reply with
  | Resolved body => mkState (fst body) (snd body) false (error st)
  | Rejected err =>
      mkState (crosscheckRecords st) (priorityRecords st) false (VStr historyMessage)
  end.

(** [Promise.all([a, b])]: both bodies when both requests resolve, and a
    rejection as soon as one of them rejects. *)
Definition promiseAll {A B} (a : Reply A) (b : Reply B) : Reply (A * B) :=
  match a, b with
  | Resolved x, Resolved y => Resolved (x, y)
  | Rejected err, _ => Rejected err
  | _, Rejected err => Rejected err
  end.

(** A whole [fetchHistory], given how the two requests end. *)
Definition fetchHistory (crosscheckRes priorityRes : Reply (list HistoryRecord))
    (st : State) : State :=
  fetchHistorySettle (promiseAll crosscheckRes priorityRes) (fetchHistoryStart st).

(** [currentRecords.length === 0 && !error]: whether the "no history yet"
    notice is drawn for the records of the active tab. *)
Definition showsEmptyNotice (activeTab : string) (st : State) : bool :=
  let currentRecords :=
    if String.eqb activeTab "crosscheck" then crosscheckRecords st
    else priorityRecords st in
  ((Z.of_nat (length currentRecords) =? 0)%Z && negb (truthy (error st)))%bool.

End History.

(** The three classes of the severity classifier, as the style each one is
    drawn with: red for high, yellow for medium, blue (informational) for
    low. *)
Inductive Severity : Type := SevHigh | SevMedium | SevLow.

Definition severityStyles (c : Severity) : SeverityStyles :=
  match c with
  | SevHigh => mkStyles "bg-red-600/20" "border-red-600/30" "bg-red-600 text-white"
                        AlertTriangle "text-red-400"
  | SevMedium => mkStyles "bg-yellow-600/20" "border-yellow-600/30" "bg-yellow-600 text-white"
                          AlertTriangle "text-yellow-400"
  | SevLow => mkStyles "bg-blue-600/20" "border-blue-600/30" "bg-blue-600 text-white"
                       Info "text-blue-400"
  end.

(** The label after case normalisation; a missing label normalises to the
    empty string. *)
Definition normalizedLabel (v : jsValue) : string :=
  match v with
  | VStr s => toLowerCase s
  | _ => ""
  end.

(** The classification the contract asks for, on a normalised label. *)
Definition severityOfNormalized (n : string) : Severity :=
  if (String.eqb n "high" || String.eqb n "alta")%bool then SevHigh
  else if (String.eqb n "medium" || String.eqb n "media")%bool then SevMedium
  else SevLow.

(** ** CrossCheckView.jsx *)

Module CrossCheckView.

Record State : Type := mkState {
  excelFile : option File;
  pptxFile : option File;
  isDragging : bool;
  isLoading : bool;
  error : jsValue;
  success : bool
}.

Definition initial : State := mkState None None false false VNull false.

Definition setExcelFile (f : option File) (st : State) : State :=
  mkState f (pptxFile st) (isDragging st) (isLoading st) (error st) (success st).
Definition setPptxFile (f : option File) (st : State) : State :=
  mkState (excelFile st) f (isDragging st) (isLoading st) (error st) (success st).
Definition setIsDragging (b : bool) (st : State) : State :=
  mkState (excelFile st) (pptxFile st) b (isLoading st) (error st) (success st).
Definition setIsLoading (b : bool) (st : State) : State :=
  mkState (excelFile st) (pptxFile st) (isDragging st) b (error st) (success st).
Definition setError (e : jsValue) (st : State) : State :=
  mkState (excelFile st) (pptxFile st) (isDragging st) (isLoading st) e (success st).
Definition setSuccess (b : bool) (st : State) : State :=
  mkState (excelFile st) (pptxFile st) (isDragging st) (isLoading st) (error st) b.

Definition unsupportedMessage (extension : string) : string :=
  "Tipo de archivo no soportado: ." ++ extension ++ ". Solo se aceptan .xlsx y .pptx.".

(** The body of the [forEach] callback of [processFiles]. *)
Definition processFile (st : State) (file : File) : State :=
  let extension := extensionOf file in
  if (String.eqb extension "xlsx" || String.eqb extension "xls")%bool then
    setExcelFile (Some file) st
  else if String.eqb extension "pptx" then
    setPptxFile (Some file) st
  else
    setError (VStr (unsupportedMessage extension)) st.

Definition processFiles (files : list File) (st : State) : State :=
  fold_left processFile files st.

Definition handleDragOver (st : State) : State := setIsDragging true st.
Definition handleDragLeave (st : State) : State := setIsDragging false st.

Definition handleDrop (files : list File) (st : State) : State :=
  processFiles files (setError VNull (setIsDragging false st)).

(** The two file inputs call this with the first chosen file and with
    their own [fileType]; the name of the file is not looked at. *)
Definition handleFileSelect (chosen : option File) (fileType : string) (st : State) : State :=
  match chosen with
  | None => st
  | Some file =>
      let st := setError VNull st in
      if String.eqb fileType "excel" then setExcelFile (Some file) st
      else setPptxFile (Some file) st
  end.

Definition removeFile (fileType : string) (st : State) : State :=
  let st := if String.eqb fileType "excel" then setExcelFile None st
            else setPptxFile None st in
  setError VNull (setSuccess false st).

(** The multipart form posted to [/analyze]. *)
Record Request : Type := mkRequest {
  url : string;
  form : list (string * File)
}.

Definition missingFilesMessage : string :=
  "Por favor sube tanto el archivo Excel como el PowerPoint.".
Definition analyzeFallback : string :=
  "Error en análisis. Por favor intenta de nuevo.".

(** [handleAnalyze] up to its [await]: the guard, then the request. *)
Definition handleAnalyzeStart (st : State) : State * option Request :=
  match excelFile st, pptxFile st with
  | Some excel, Some pptx =>
      let st := setSuccess false (setError VNull (setIsLoading true st)) in
      (st, Some (mkRequest "/analyze" [("file_excel", excel); ("file_ppt", pptx)]))
  | _, _ => (setError (VStr missingFilesMessage) st, None)
  end.

(** [handleAnalyze] after its [await]: [try] / [catch] / [finally]. The
    second component is what [onAnalysisComplete] is called with. *)
Definition handleAnalyzeSettle {D} (reply : Reply D) (st : State) : State * option D :=
  match reply with
  | Resolved body => (setIsLoading false (setSuccess true st), Some body)
  | Rejected err =>
      let errorMessage :=
        Js.or (Js.or (detailOf err) (message err)) (VStr analyzeFallback) in
      (setIsLoading false (setError errorMessage st), None)
  end.

(** The view inside App: [analysisResults] is App's state cell, written
    by [onAnalysisComplete]; [sent] logs the requests issued. *)
Record Page (D : Type) : Type := mkPage {
  view : State;
  analysisResults : option D;
  sent : list Request
}.
Arguments mkPage {D}.
Arguments view {D}.
Arguments analysisResults {D}.
Arguments sent {D}.

(** A whole click on "Analizar Archivos", against a service that answers
    each request with [service], when no other handler runs while the
    request is awaited: the settling is applied to the state the click
    left. (Drops, file choices and removals stay possible during the
    await; those sessions are not runs of this function.) *)
Definition handleAnalyze {D} (service : Request -> Reply D) (pg : Page D) : Page D :=
  match handleAnalyzeStart (view pg) with
  | (st, None) => mkPage st (analysisResults pg) (sent pg)
  | (st, Some req) =>
      match handleAnalyzeSettle (service req) st with
      | (st', Some body) => mkPage st' (Some body) (sent pg ++ [req])
      | (st', None) => mkPage st' (analysisResults pg) (sent pg ++ [req])
      end
  end.

(** [disabled={!excelFile || !pptxFile || isLoading}] *)
Definition analyzeDisabled (st : State) : bool :=
  match excelFile st, pptxFile st with
  | Some _, Some _ => isLoading st
  | _, _ => true
  end.

End CrossCheckView.

(** ** PriorityBatchView.jsx *)

Module PriorityBatchView.

Record State : Type := mkState {
  file : option File;
  isDragging : bool;
  isLoading : bool;
  error : jsValue;
  results : option BatchResult
}.

Definition initial : State := mkState None false false VNull None.

Definition setFile (f : option File) (st : State) : State :=
  mkState f (isDragging st) (isLoading st) (error st) (results st).
Definition setIsDragging (b : bool) (st : State) : State :=
  mkState (file st) b (isLoading st) (error st) (results st).
Definition setIsLoading (b : bool) (st : State) : State :=
  mkState (file st) (isDragging st) b (error st) (results st).
Definition setError (e : jsValue) (st : State) : State :=
  mkState (file st) (isDragging st) (isLoading st) e (results st).
Definition setResults (r : option BatchResult) (st : State) : State :=
  mkState (file st) (isDragging st) (isLoading st) (error st) r.

Definition unsupportedMessage : string :=
  "Tipo de archivo no soportado. Por favor sube un archivo Excel válido (.xlsx)".
Definition processFallback : string :=
  "Falló el procesamiento. Por favor intenta de nuevo.".

Definition validateAndSetFile (selectedFile : option File) (st : State) : State :=
  match selectedFile with
  | None => st
  | Some selected =>
      let extension := extensionOf selected in
      if (String.eqb extension "xlsx" || String.eqb extension "xls")%bool then
        setError VNull (setFile (Some selected) st)
      else
        setError (VStr unsupportedMessage) st
  end.

(** [e.dataTransfer.files[0]] *)
Definition handleDrop (files : list File) (st : State) : State :=
  validateAndSetFile (head files) (setIsDragging false st).

(** [e.target?.files?.[0]] *)
Definition handleFileSelect (files : option (list File)) (st : State) : State :=
  validateAndSetFile (files ≫= head) st.

(** [handleProcess] up to its [await]; the request carries the file. *)
Definition handleProcessStart (st : State) : State * option File :=
  match file st with
  | None => (st, None)
  | Some f => (setError VNull (setIsLoading true st), Some f)
  end.

(** [handleProcess] after its [await]. *)
Definition handleProcessSettle (reply : Reply BatchResult) (st : State) : State :=
  match reply with
  | Resolved body => setIsLoading false (setResults (Some body) st)
  | Rejected err =>
      setIsLoading false
        (setError (Js.or (detailOf err) (VStr processFallback)) st)
  end.

Definition getScoreColor (score : Z) : completion string :=
  if (score >=? 80)%Z then Return "text-red-400"
  else if (score >=? 60)%Z then Return "text-orange-400"
  else if (score >=? 40)%Z then Return "text-yellow-400"
  else Return "text-green-400".

(** [project.breakdown[key]]: the entry of a factor in the breakdown
    object, [undefined] when the object has no such key. *)
Fixpoint entryOf (key : string) (entries : list (string * BreakdownEntry))
  : option BreakdownEntry :=
  match entries with
  | [] => None
  | (k, e) :: rest => if String.eqb k key then Some e else entryOf key rest
  end.

(** One row of the ranking table: the rank shown, the project (its name,
    id, area, sponsor, score and tier badge are drawn from it), the ROI and
    urgency cells, and the colour class of the score. *)
Record Row : Type := mkRow {
  rank : Z;
  project : ProjectResult;
  roiCell : Z;
  urgencyCell : Z;
  scoreClass : string
}.

(** The callback of [results.results.map((project, index) => ...)]. The
    cells read [project.breakdown.roi.value.toFixed(0)] and
    [project.breakdown.urgency.value.toFixed(0)]: reading [.value] of a
    missing entry throws. *)
Definition renderRow (index : nat) (p : ProjectResult) : completion Row :=
  match entryOf "roi" (breakdown (priority p)) with
  | None => Throw "TypeError"
  | Some roi =>
      match entryOf "urgency" (breakdown (priority p)) with
      | None => Throw "TypeError"
      | Some urgency =>
          let! colorClass := getScoreColor (projectScore p) in
          Return (mkRow (Z.of_nat index + 1) p (value roi) (value urgency) colorClass)
      end
  end.

(** [Array.prototype.map] over the results from position [index] on; the
    first row that throws ends the render. *)
Fixpoint renderRowsFrom (index : nat) (ps : list ProjectResult) : completion (list Row) :=
  match ps with
  | [] => Return []
  | p :: rest =>
      let! row := renderRow index p in
      let! rows := renderRowsFrom (S index) rest in
      Return (row :: rows)
  end.

(** The body of the ranking table: the rows are drawn in the order of the
    response, ranked [#index + 1]. *)
Definition renderRows (r : BatchResult) : completion (list Row) :=
  renderRowsFrom 0 (Api.results r).

Definition handleDragOver (st : State) : State := setIsDragging true st.
Definition handleDragLeave (st : State) : State := setIsDragging false st.

(** The "Eliminar" link: [onClick={() => setFile(null)}]. *)
Definition removeFile (st : State) : State := setFile None st.

(** [disabled={!file || isLoading}] *)
Definition processDisabled (st : State) : bool :=
  match file st with
  | Some _ => isLoading st
  | None => true
  end.

(** A browser session on the batch view; [inFlight] is the file of the
    request being awaited, if any. *)
Record Session : Type := mkSession {
  ui : State;
  inFlight : option File
}.

Definition start : Session := mkSession initial None.

Inductive Event : Type :=
| DragOver
| DragLeave
| Drop (files : list File)
| Select (files : option (list File))
| Remove
| ClickProcess
| Settle (reply : Reply BatchResult).

(** One event of the session; [None] when the page cannot produce it: the
    file input is drawn only while no file is selected and the "Eliminar"
    link only while one is, the button is disabled without a file and while
    loading, and only an awaited request can settle. *)
Definition step (s : Session) (e : Event) : option Session :=
  match e with
  | DragOver => Some (mkSession (handleDragOver (ui s)) (inFlight s))
  | DragLeave => Some (mkSession (handleDragLeave (ui s)) (inFlight s))
  | Drop files => Some (mkSession (handleDrop files (ui s)) (inFlight s))
  | Select files =>
      match file (ui s) with
      | None => Some (mkSession (handleFileSelect files (ui s)) (inFlight s))
      | Some _ => None
      end
  | Remove =>
      match file (ui s) with
      | Some _ => Some (mkSession (removeFile (ui s)) (inFlight s))
      | None => None
      end
  | ClickProcess =>
      if processDisabled (ui s) then None
      else match handleProcessStart (ui s) with
           | (st, posted) => Some (mkSession st posted)
           end
  | Settle reply =>
      match inFlight s with
      | Some _ => Some (mkSession (handleProcessSettle reply (ui s)) None)
      | None => None
      end
  end.

Fixpoint run (s : Session) (events : list Event) : option Session :=
  match events with
  | [] => Some s
  | e :: rest => match step s e with
                 | Some s' => run s' rest
                 | None => None
                 end
  end.

(** Whether a file's extension is one the batch view takes. *)
Definition isExcel (f : File) : bool :=
  (String.eqb (extensionOf f) "xlsx" || String.eqb (extensionOf f) "xls")%bool.

End PriorityBatchView.

(** ** ProjectScorer.jsx *)

Module ProjectScorer.

Record State : Type := mkState {
  formData : gmap string Z;
  result : option PriorityResult;
  isLoading : bool;
  error : jsValue
}.

(** The keys of [sliderConfig], in the order the sliders are drawn. *)
Definition sliderKeys : list string :=
  ["roi"; "urgency"; "risk"; "strategic_alignment"; "resource_availability"].

Definition initialFormData : gmap string Z :=
  <["roi" := 50]> (<["urgency" := 50]> (<["risk" := 50]>
    (<["strategic_alignment" := 50]> (<["resource_availability" := 50]> ∅)))).

Definition initial : State := mkState initialFormData None false VNull.

Definition setResult (r : option PriorityResult) (st : State) : State :=
  mkState (formData st) r (isLoading st) (error st).
Definition setIsLoading (b : bool) (st : State) : State :=
  mkState (formData st) (result st) b (error st).
Definition setError (e : jsValue) (st : State) : State :=
  mkState (formData st) (result st) (isLoading st) e.

(** [value] is the number [Number(e.target.value)] of the range input. *)
Definition handleSliderChange (field : string) (value : Z) (st : State) : State :=
  setResult None
    (mkState (<[field := value]> (formData st)) (result st) (isLoading st) (error st)).

Definition calculateFallback : string := "Failed to calculate priority score.".

(** [handleCalculate] up to its [await]; the second component is the body
    posted to [/prioritize]: the [formData] of the render that was
    clicked. *)
Definition handleCalculateStart (st : State) : State * gmap string Z :=
  (setError VNull (setIsLoading true st), formData st).

(** [handleCalculate] after its [await]. *)
Definition handleCalculateSettle (reply : Reply PriorityResult) (st : State) : State :=
  match reply with
  | Resolved body => setIsLoading false (setResult (Some body) st)
  | Rejected err =>
      setIsLoading false
        (setError (Js.or (detailOf err) (VStr calculateFallback)) st)
  end.

(** What the results panel draws from a result: the score, and for each
    entry of [Object.entries(result.breakdown)] its key, the width of its
    bar and the contribution printed after the [+]. *)
Definition displayedScore (r : PriorityResult) : Z := score r.
Definition displayedBreakdown (r : PriorityResult) : list (string * Z * Z) :=
  map (fun kd => (fst kd, value (snd kd), contribution (snd kd))) (breakdown r).

(** A browser session on the scorer. [inFlight] is the body of the request
    being awaited, if any. [shownFor] is a ghost cell: the factor values the
    displayed result was computed from. *)
Record Session : Type := mkSession {
  ui : State;
  inFlight : option (gmap string Z);
  shownFor : option (gmap string Z)
}.

Definition start : Session := mkSession initial None None.

Inductive Event : Type :=
| SliderChange (field : string) (value : Z)
| ClickCalculate
| Settle (reply : Reply PriorityResult).

(** One event of the session; [None] when the page cannot produce it: a
    slider only reports its own key and a value in its range, the button is
    disabled while loading, and only an awaited request can settle. *)
Definition step (s : Session) (e : Event) : option Session :=
  match e with
  | SliderChange field value =>
      if (bool_decide (field ∈ sliderKeys) && (0 <=? value)%Z && (value <=? 100)%Z)%bool
      then Some (mkSession (handleSliderChange field value (ui s)) (inFlight s) None)
      else None
  | ClickCalculate =>
      if isLoading (ui s) then None
      else let (st, body) := handleCalculateStart (ui s) in
           Some (mkSession st (Some body) (shownFor s))
  | Settle reply =>
      match inFlight s with
      | None => None
      | Some body =>
          Some (mkSession (handleCalculateSettle reply (ui s)) None
                  (match reply with
                   | Resolved _ => Some body
                   | Rejected _ => shownFor s
                   end))
      end
  end.

Fixpoint run (s : Session) (events : list Event) : option Session :=
  match events with
  | [] => Some s
  | e :: rest => match step s e with
                 | Some s' => run s' rest
                 | None => None
                 end
  end.

(** No stale result: a displayed result was computed from the factor values
    now on the sliders. *)
Definition fresh (s : Session) : Prop :=
  forall r, result (ui s) = Some r -> shownFor s = Some (formData (ui s)).

(** The sessions in which no slider moves while a request is awaited. *)
Inductive calmTrace : Session -> list Event -> Session -> Prop :=
| calm_done (s : Session) : calmTrace s [] s
| calm_step (s s' s'' : Session) (e : Event) (rest : list Event) :
    step s e = Some s' ->
    (forall field value, e = SliderChange field value -> inFlight s = None) ->
    calmTrace s' rest s'' ->
    calmTrace s (e :: rest) s''.

End ProjectScorer.

(** ** Navbar.jsx and App.jsx *)

Module Navbar.

(** [navItems]: tab id and label. *)
Definition navItems : list (string * string) :=
  [("priority", "Priorizador");
   ("crosscheck", "Validación Cruzada");
   ("history", "Historial")].

End Navbar.

Module App.

(** App's state cells, and the [mobileMenuOpen] cell of its Navbar. *)
Record State : Type := mkState {
  activeTab : string;
  theme : string;
  analysisResults : option AnalysisResult;
  mobileMenuOpen : bool
}.

Definition initial : State := mkState "priority" "dark" None false.

Definition toggleTheme (st : State) : State :=
  mkState (activeTab st)
          (if String.eqb (theme st) "dark" then "light" else "dark")
          (analysisResults st) (mobileMenuOpen st).

Definition handleAnalysisComplete (results : AnalysisResult) (st : State) : State :=
  mkState (activeTab st) (theme st) (Some results) (mobileMenuOpen st).

(** Navbar's [handleNavClick]: [setActiveTab(tabId)] and close the menu. *)
Definition handleNavClick (tabId : string) (st : State) : State :=
  mkState tabId (theme st) (analysisResults st) false.

(** [setMobileMenuOpen(!mobileMenuOpen)] *)
Definition toggleMenu (st : State) : State :=
  mkState (activeTab st) (theme st) (analysisResults st) (negb (mobileMenuOpen st)).

(** Whether the [dark] class is on the document element after a render. *)
Definition darkClass (st : State) : bool := String.eqb (theme st) "dark".

(** What [renderContent] mounts; the cross-check page carries the results
    its dashboard is drawn from, if any. *)
Inductive Page : Type :=
| PriorityBatchPage
| CrossCheckPage (dashboard : option AnalysisResult)
| HistoryPage.

(** [renderContent]: the [switch] on [activeTab]; [None] is its [default:
    return null]. *)
Definition renderContent (st : State) : option Page :=
  if String.eqb (activeTab st) "priority" then Some PriorityBatchPage
  else if String.eqb (activeTab st) "crosscheck" then
    Some (CrossCheckPage (analysisResults st))
  else if String.eqb (activeTab st) "history" then Some HistoryPage
  else None.

Inductive Event : Type :=
| NavClick (tabId : string)
| ToggleTheme
| ToggleMenu
| AnalysisComplete (results : AnalysisResult).

(** One event; [None] when the page cannot produce it: there is one nav
    button per item of [navItems]. *)
Definition step (st : State) (e : Event) : option State :=
  match e with
  | NavClick tabId =>
      if bool_decide (tabId ∈ map fst Navbar.navItems)
      then Some (handleNavClick tabId st) else None
  | ToggleTheme => Some (toggleTheme st)
  | ToggleMenu => Some (toggleMenu st)
  | AnalysisComplete results => Some (handleAnalysisComplete results st)
  end.

Fixpoint run (st : State) (events : list Event) : option State :=
  match events with
  | [] => Some st
  | e :: rest => match step st e with
                 | Some st' => run st' rest
                 | None => None
                 end
  end.

End App.

(** ** Priority tiers *)

(** Modelled from the spec: the four named tiers of the example table of
    the Tier Classifier (the tier names are assigned by the scoring
    service; the views only draw the colour of a score). *)
Inductive Tier : Type := Critical | High | Medium | Low.

(** Modelled from the spec: the display colour of each tier ("Critical"
    red, "High" orange, "Medium" yellow, "Low" green), as the colour class
    the views use for it. *)
Definition tierColorClass (t : Tier) : string :=
  match t with
  | Critical => "text-red-400"
  | High => "text-orange-400"
  | Medium => "text-yellow-400"
  | Low => "text-green-400"
  end.

(** Modelled from the spec: the lower bound of each band, thresholds
    {80, 60, 40, 0}. *)
Definition tierLowerBound (t : Tier) : Z :=
  match t with
  | Critical => 80
  | High => 60
  | Medium => 40
  | Low => 0
  end.

(** Modelled from the spec: a band ends just below the next higher
    threshold, the top band at 100. *)
Definition tierUpperBound (t : Tier) : Z :=
  match t with
  | Critical => 100
  | High => 79
  | Medium => 59
  | Low => 39
  end.

Definition inBand (t : Tier) (s : Z) : Prop :=
  (tierLowerBound t <= s <= tierUpperBound t)%Z.

(** ** The scoring service's side of the contract *)

Module Contract.

(** Modelled from the spec: the configuration of the Score Aggregator and
    Tier Classifier, which belong to the scoring service and are not among
    the client sources. Weights are in hundredths (the "fixed total"
    convention); [tiers] lists lower bound, name and colour from the highest
    band down; [recommend] is the per-tier recommendation template. The
    configuration is validated when it is loaded, before any call. *)
Record Config : Type := mkConfig {
  weights : list (string * Z);
  tiers : list (Z * (string * string));
  recommend : string -> string
}.

(** Modelled from the spec: round-half-up of [value * weight / 100], the
    rounding applied identically to every factor. *)
Definition contributionOf (value weight : Z) : Z :=
  ((value * weight + 50) / 100)%Z.

(** Modelled from the spec: the per-factor breakdown; every required factor
    must be present ([ValidationError] otherwise) with a value in [0,100]
    (out-of-range input is rejected, not clamped). *)
Fixpoint breakdownOf (ws : list (string * Z)) (factors : gmap string Z)
  : completion (list (string * BreakdownEntry)) :=
  match ws with
  | [] => Return []
  | (key, w) :: rest =>
      match factors !! key with
      | None => Throw "ValidationError"
      | Some v =>
          if ((0 <=? v)%Z && (v <=? 100)%Z)%bool then
            let! others := breakdownOf rest factors in
            Return ((key, mkEntry v (contributionOf v w)) :: others)
          else Throw "RangeError"
      end
  end.

(** Modelled from the spec: [sum(breakdown[*].contribution)]. *)
Definition sumContributions (b : list (string * BreakdownEntry)) : Z :=
  fold_right (fun kd acc => (contribution (snd kd) + acc)%Z) 0%Z b.

(** Modelled from the spec: [clamp(x, 0, 100)]. *)
Definition clamp (lo hi x : Z) : Z := Z.max lo (Z.min hi x).

(** Modelled from the spec: the position of the largest contributor (the
    first one among equals). *)
Fixpoint largestIndex (b : list (string * BreakdownEntry)) : nat :=
  match b with
  | [] => 0%nat
  | (_, e) :: rest =>
      let j := largestIndex rest in
      match rest !! j with
      | Some (_, e') => if (contribution e <? contribution e')%Z then S j else 0%nat
      | None => 0%nat
      end
  end.

(** Modelled from the spec: reconciliation of the drift between the sum of
    the rounded contributions and the score, by assigning the residual to
    the largest contributor. *)
Definition reconcile (residual : Z) (b : list (string * BreakdownEntry))
  : list (string * BreakdownEntry) :=
  let i := largestIndex b in
  match b !! i with
  | Some (key, e) => <[i := (key, mkEntry (value e) (contribution e + residual)%Z)]> b
  | None => b
  end.

(** Modelled from the spec: the bands are scanned from the highest
    threshold down and the first one whose lower bound is at most the score
    wins; a table that covers no band for the score is a configuration
    error. *)
Fixpoint tierFor (bands : list (Z * (string * string))) (s : Z)
  : completion (string * string) :=
  match bands with
  | [] => Throw "ConfigurationError"
  | (lower, named) :: rest =>
      if (lower <=? s)%Z then Return named else tierFor rest s
  end.

(** Modelled from the spec: [aggregate] of section 4.3. *)
Definition aggregate (cfg : Config) (factors : gmap string Z)
  : completion PriorityResult :=
  let! rounded := breakdownOf (weights cfg) factors in
  let total := sumContributions rounded in
  let s := clamp 0 100 total in
  let! named := tierFor (tiers cfg) s in
  Return (mkPriorityResult s (fst named) (snd named)
            (reconcile (s - total) rounded) (recommend cfg (fst named))).

(** Modelled from the spec: a project of a batch, before scoring. *)
Record Project : Type := mkProject {
  projectId : string;
  projectName : string;
  projectArea : string;
  projectSponsor : string;
  factors : gmap string Z
}.

(** Modelled from the spec: step one of [assemble], "for each project,
    invoke 4.3"; it fails as a whole on the first invalid project. *)
Definition scoreProject (cfg : Config) (p : Project) : completion ProjectResult :=
  let! r := aggregate cfg (factors p) in
  Return (mkProjectResult (projectId p) (projectName p) (projectArea p)
            (projectSponsor p) r).

(** Modelled from the spec: the projects are scored in input order. *)
Fixpoint scoreAll (cfg : Config) (ps : list Project) : completion (list ProjectResult) :=
  match ps with
  | [] => Return []
  | p :: rest =>
      let! r := scoreProject cfg p in
      let! rs := scoreAll cfg rest in
      Return (r :: rs)
  end.

(** Modelled from the spec: the stable descending sort of [assemble], as
    an insertion sort: a project is put in front of the first one that does
    not score more than it does. *)
Fixpoint insertByScore (x : ProjectResult) (l : list ProjectResult) : list ProjectResult :=
  match l with
  | [] => [x]
  | y :: rest =>
      if (projectScore y <=? projectScore x)%Z then x :: y :: rest
      else y :: insertByScore x rest
  end.

(** Modelled from the spec: the ranking, best score first. *)
Fixpoint sortByScoreDesc (l : list ProjectResult) : list ProjectResult :=
  match l with
  | [] => []
  | x :: rest => insertByScore x (sortByScoreDesc rest)
  end.

(** Modelled from the spec: "sorted descending by score", as the order
    between an earlier and a later entry of the ranking. *)
Definition scoresDescend (a b : ProjectResult) : Prop :=
  (projectScore b <= projectScore a)%Z.

(** Modelled from the spec: [assemble] of section 4.5. *)
Definition assemble (cfg : Config) (ps : list Project) : completion BatchResult :=
  let! scored := scoreAll cfg ps in
  let ranked := sortByScoreDesc scored in
  Return (mkBatchResult (Z.of_nat (length ranked)) ranked).

(** Modelled from the spec: a factor set is valid for a weight table when it gives every weighted
    factor a value in [0,100]. *)
Definition validFactors (ws : list (string * Z)) (factors : gmap string Z) : Prop :=
  Forall (fun kw => exists v, factors !! (fst kw) = Some v /\ (0 <= v <= 100)%Z) ws.

(** Modelled from the spec: a tier table covers the scores when one of its bands starts at or
    below 0. *)
Definition coversScores (bands : list (Z * (string * string))) : Prop :=
  Exists (fun band => (fst band <= 0)%Z) bands.

(** Modelled from the spec: the configuration of the example scenarios,
    thresholds {80, 60, 40, 0} and the weights of the pinned fixture, in
    hundredths (risk penalises). *)
Definition exampleConfig : Config :=
  mkConfig
    [("roi", 30); ("urgency", 25); ("risk", -15);
     ("strategic_alignment", 20); ("resource_availability", 10)]%Z
    [(80, ("Critical", "red")); (60, ("High", "orange"));
     (40, ("Medium", "yellow")); (0, ("Low", "green"))]%Z
    (fun t => t ++ " priority").

(** Modelled from the spec: the batch of the example scenario, three
    projects that score 55, 82 and 82 in input order. *)
Definition exampleBatch : list Project :=
  [ mkProject "A" "Medidores" "Redes" "Rojas"
      (list_to_map [("roi", 100); ("urgency", 100); ("risk", 0);
                    ("strategic_alignment", 0); ("resource_availability", 0)]%Z);
    mkProject "B" "Planta Norte" "Produccion" "Soto"
      (list_to_map [("roi", 100); ("urgency", 100); ("risk", 0);
                    ("strategic_alignment", 100); ("resource_availability", 70)]%Z);
    mkProject "C" "Telemetria" "TI" "Vera"
      (list_to_map [("roi", 100); ("urgency", 88); ("risk", 0);
                    ("strategic_alignment", 100); ("resource_availability", 100)]%Z) ].

End Contract.

(** ** Notions used to state the properties of the views *)


(** Whether a string is made of ASCII characters only; on those
    [String.prototype.toLowerCase] folds A-Z and nothing else. *)
Fixpoint asciiOnly (s : string) : bool :=
  match s with
  | EmptyString => true
  | String c rest => ((nat_of_ascii c <? 128)%nat && asciiOnly rest)%bool
  end.

(** Whether a character occurs in a string. *)
Fixpoint occursIn (c : ascii) (s : string) : bool :=
  match s with
  | EmptyString => false
  | String c' rest => (Ascii.eqb c' c || occursIn c rest)%bool
  end.

(** The extensions the cross-check view takes for each of its inputs. *)
Definition excelExtension (f : File) : Prop :=
  extensionOf f = "xlsx" \/ extensionOf f = "xls".
Definition pptxExtension (f : File) : Prop :=
  ~ excelExtension f /\ extensionOf f = "pptx".
Definition unsupportedExtension (f : File) : Prop :=
  ~ excelExtension f /\ extensionOf f <> "pptx".

#[global] Instance excelExtension_dec (f : File) : Decision (excelExtension f).
Proof. unfold excelExtension. apply _. Defined.
#[global] Instance pptxExtension_dec (f : File) : Decision (pptxExtension f).
Proof. unfold pptxExtension. apply _. Defined.
#[global] Instance unsupportedExtension_dec (f : File) : Decision (unsupportedExtension f).
Proof. unfold unsupportedExtension. apply _. Defined.

(** The invariant of a session on the batch view: only Excel files are
    selected or posted, and the loading flag tells whether a request is
    awaited. *)
Definition batchInvariant (s : PriorityBatchView.Session) : Prop :=
  (forall f, PriorityBatchView.file (PriorityBatchView.ui s) = Some f ->
             PriorityBatchView.isExcel f = true)
  /\ (forall f, PriorityBatchView.inFlight s = Some f -> PriorityBatchView.isExcel f = true)
  /\ (PriorityBatchView.isLoading (PriorityBatchView.ui s) = true
      <-> is_Some (PriorityBatchView.inFlight s)).

(** A request body of the scorer is well formed when it holds exactly the
    five factors of the sliders, each in the range of its slider. *)
Definition wellFormedBody (body : gmap string Z) : Prop :=
  forall key : string,
    (key ∈ ProjectScorer.sliderKeys ->
       exists v, body !! key = Some v /\ (0 <= v <= 100)%Z)
    /\ (key ∉ ProjectScorer.sliderKeys -> body !! key = None).

(** The invariant of a session on the scorer. *)
Definition scorerInvariant (s : ProjectScorer.Session) : Prop :=
  wellFormedBody (ProjectScorer.formData (ProjectScorer.ui s))
  /\ (forall body, ProjectScorer.inFlight s = Some body -> wellFormedBody body)
  /\ (ProjectScorer.isLoading (ProjectScorer.ui s) = true
      <-> is_Some (ProjectScorer.inFlight s)).

(** The invariant of the application shell: the active tab is one of the
    navigation items and the theme is one of the two themes. *)
Definition shellInvariant (st : App.State) : Prop :=
  App.activeTab st ∈ map fst Navbar.navItems
  /\ (App.theme st = "dark" \/ App.theme st = "light").

(** Whether an event of the shell is the arrival of analysis results. *)
Definition deliversResults (e : App.Event) : bool :=
  match e with
  | App.AnalysisComplete _ => true
  | _ => false
  end.

(** The order of the priority colours, coolest first. *)
Definition heat (colorClass : string) : Z :=
  if String.eqb colorClass "text-red-400" then 3
  else if String.eqb colorClass "text-orange-400" then 2
  else if String.eqb colorClass "text-yellow-400" then 1
  else 0.

(** * Properties *)

(** ** Severity classifier *)

Lemma severityStyles_inj (c c' : Severity) :
  severityStyles c = severityStyles c' -> c = c'.
Proof. destruct c, c'; simpl; intros H; try reflexivity; discriminate H. Qed.

Lemma getSeverityStyles_string (s : string) :
  ResultsDashboard.getSeverityStyles (VStr s)
  = Return (severityStyles (severityOfNormalized (toLowerCase s)))
  /\ HistoryDetail.getSeverityStyles (VStr s)
     = Return (severityStyles (severityOfNormalized (toLowerCase s))).
Proof.
  unfold ResultsDashboard.getSeverityStyles, HistoryDetail.getSeverityStyles,
    severityOfNormalized.
  cbn [optToLowerCase Js.bind]. unfold Js.or. cbn [truthy].
  destruct (String.eqb (toLowerCase s) "") eqn:Hempty.
  - apply String.eqb_eq in Hempty. rewrite Hempty. split; reflexivity.
  - cbn [negb strictEqStr].
    destruct (String.eqb (toLowerCase s) "high"),
             (String.eqb (toLowerCase s) "alta"),
             (String.eqb (toLowerCase s) "medium"),
             (String.eqb (toLowerCase s) "media"); split; reflexivity.
Qed.

Lemma severityOfNormalized_cases (n : string) :
  (severityOfNormalized n = SevHigh <-> n = "high" \/ n = "alta")
  /\ (severityOfNormalized n = SevMedium <-> n = "medium" \/ n = "media")
  /\ (severityOfNormalized n = SevLow <->
      n <> "high" /\ n <> "alta" /\ n <> "medium" /\ n <> "media").
Proof.
  unfold severityOfNormalized.
  destruct (String.eqb_spec n "high") as [-> | Hh]; [cbn; intuition congruence |].
  destruct (String.eqb_spec n "alta") as [-> | Ha]; [cbn; intuition congruence |].
  destruct (String.eqb_spec n "medium") as [-> | Hm]; [cbn; intuition congruence |].
  destruct (String.eqb_spec n "media") as [-> | Hd]; cbn; intuition congruence.
Qed.

(** C1. For every severity label (a string of any case, or a missing
    label) both copies of the severity classifier return, without throwing,
    the style of exactly one class: high when the lower-cased label is
    "high" or "alta", medium when it is "medium" or "media", low for every
    other label, the empty and the missing one included. *)
Theorem severity_classifier_total (v : jsValue) :
  isLabel v = true ->
  exists c : Severity,
    ResultsDashboard.getSeverityStyles v = Return (severityStyles c)
    /\ HistoryDetail.getSeverityStyles v = Return (severityStyles c)
    /\ (forall c', ResultsDashboard.getSeverityStyles v = Return (severityStyles c') -> c' = c)
    /\ (c = SevHigh <-> normalizedLabel v = "high" \/ normalizedLabel v = "alta")
    /\ (c = SevMedium <-> normalizedLabel v = "medium" \/ normalizedLabel v = "media")
    /\ (c = SevLow <->
        normalizedLabel v <> "high" /\ normalizedLabel v <> "alta"
        /\ normalizedLabel v <> "medium" /\ normalizedLabel v <> "media").
Proof.
  intros Hlabel.
  exists (severityOfNormalized (normalizedLabel v)).
  assert (Hrun :
    ResultsDashboard.getSeverityStyles v
    = Return (severityStyles (severityOfNormalized (normalizedLabel v)))
    /\ HistoryDetail.getSeverityStyles v
       = Return (severityStyles (severityOfNormalized (normalizedLabel v)))).
  { destruct v as [ | | s | n]; cbn [normalizedLabel].
    - split; reflexivity.
    - split; reflexivity.
    - apply getSeverityStyles_string.
    - discriminate Hlabel. }
  destruct Hrun as [Hrd Hhd].
  split; [exact Hrd |]. split; [exact Hhd |]. split.
  - intros c' Hc'. rewrite Hrd in Hc'. injection Hc' as Hc'.
    symmetry. apply severityStyles_inj. rewrite <- Hc'.
    reflexivity.
  - apply severityOfNormalized_cases.
Qed.

Lemma severity_classifier_total_witness :
  isLabel (VStr "AlTa") = true /\
  exists c : Severity,
    ResultsDashboard.getSeverityStyles (VStr "AlTa") = Return (severityStyles c)
    /\ HistoryDetail.getSeverityStyles (VStr "AlTa") = Return (severityStyles c)
    /\ (forall c', ResultsDashboard.getSeverityStyles (VStr "AlTa")
                   = Return (severityStyles c') -> c' = c)
    /\ (c = SevHigh <-> normalizedLabel (VStr "AlTa") = "high"
                        \/ normalizedLabel (VStr "AlTa") = "alta")
    /\ (c = SevMedium <-> normalizedLabel (VStr "AlTa") = "medium"
                          \/ normalizedLabel (VStr "AlTa") = "media")
    /\ (c = SevLow <->
        normalizedLabel (VStr "AlTa") <> "high" /\ normalizedLabel (VStr "AlTa") <> "alta"
        /\ normalizedLabel (VStr "AlTa") <> "medium"
        /\ normalizedLabel (VStr "AlTa") <> "media").
Proof.
  split; [reflexivity |].
  apply (severity_classifier_total (VStr "AlTa")). reflexivity.
Defined.

(** A severity that is neither a string nor missing makes the classifier
    throw: numbers have no [toLowerCase]. *)
Example getSeverityStyles_number :
  ResultsDashboard.getSeverityStyles (VNum 3) = Throw "TypeError".
Proof. reflexivity. Qed.

Example getSeverityStyles_examples :
  ResultsDashboard.getSeverityStyles (VStr "HIGH") = Return (severityStyles SevHigh)
  /\ ResultsDashboard.getSeverityStyles (VStr "Media") = Return (severityStyles SevMedium)
  /\ ResultsDashboard.getSeverityStyles (VStr "critical") = Return (severityStyles SevLow)
  /\ ResultsDashboard.getSeverityStyles (VStr "") = Return (severityStyles SevLow)
  /\ ResultsDashboard.getSeverityStyles VNull = Return (severityStyles SevLow)
  /\ ResultsDashboard.getSeverityStyles VUndefined = Return (severityStyles SevLow).
Proof. repeat split. Qed.

(** ** Tier classifier *)

Lemma tierColorClass_inj (t t' : Tier) :
  tierColorClass t = tierColorClass t' -> t = t'.
Proof. destruct t, t'; simpl; intros H; try reflexivity; discriminate H. Qed.

(** The two copies of the priority colour scale agree. *)
Lemma getScoreColor_copies (s : Z) :
  HistoryDetail.getScoreColor s = PriorityBatchView.getScoreColor s.
Proof. reflexivity. Qed.

(** Splits a goal about [getScoreColor s] along the three comparisons. *)
Ltac score_cases s :=
  unfold HistoryDetail.getScoreColor, PriorityBatchView.getScoreColor;
  rewrite ?Z.geb_leb;
  destruct (Z.leb_spec 80 s) as [? | ?];
    [| destruct (Z.leb_spec 60 s) as [? | ?];
       [| destruct (Z.leb_spec 40 s) as [? | ?]]].

Lemma getScoreColor_band (s : Z) (t : Tier) :
  (0 <= s <= 100)%Z ->
  PriorityBatchView.getScoreColor s = Return (tierColorClass t) <-> inBand t s.
Proof.
  intros Hs. unfold inBand. split.
  - score_cases s; destruct t; cbn; intros Hc; try discriminate Hc; lia.
  - intros Hb. score_cases s; destruct t; cbn in *; try reflexivity; lia.
Qed.

(** C2, as stated, at its own example: a score of 79 is drawn in the colour
    of the "High" band (it is in 60..79), not in that of "Medium". *)
Lemma tier_79_is_not_medium :
  PriorityBatchView.getScoreColor 79 = Return (tierColorClass High)
  /\ PriorityBatchView.getScoreColor 79 <> Return (tierColorClass Medium)
  /\ HistoryDetail.getScoreColor 79 = Return (tierColorClass High)
  /\ HistoryDetail.getScoreColor 79 <> Return (tierColorClass Medium).
Proof. repeat split; discriminate. Qed.

(** C2, amended. The tier classifier is lower-edge inclusive with
    thresholds {80, 60, 40, 0}: 80 or more is the top tier ("Critical",
    red), 60 to 79 is "High" (orange), 40 to 59 is "Medium" (yellow), below
    40 is "Low" (green); in particular 79 is "High", 80 is "Critical", 60 is
    "High" and 59 is "Medium". *)
Theorem tier_thresholds (s : Z) :
  ((80 <= s)%Z ->
     PriorityBatchView.getScoreColor s = Return (tierColorClass Critical)
     /\ HistoryDetail.getScoreColor s = Return (tierColorClass Critical))
  /\ ((60 <= s <= 79)%Z ->
     PriorityBatchView.getScoreColor s = Return (tierColorClass High)
     /\ HistoryDetail.getScoreColor s = Return (tierColorClass High))
  /\ ((40 <= s <= 59)%Z ->
     PriorityBatchView.getScoreColor s = Return (tierColorClass Medium)
     /\ HistoryDetail.getScoreColor s = Return (tierColorClass Medium))
  /\ ((s < 40)%Z ->
     PriorityBatchView.getScoreColor s = Return (tierColorClass Low)
     /\ HistoryDetail.getScoreColor s = Return (tierColorClass Low))
  /\ PriorityBatchView.getScoreColor 79 = Return (tierColorClass High)
  /\ PriorityBatchView.getScoreColor 80 = Return (tierColorClass Critical)
  /\ PriorityBatchView.getScoreColor 60 = Return (tierColorClass High)
  /\ PriorityBatchView.getScoreColor 59 = Return (tierColorClass Medium).
Proof.
  repeat match goal with |- _ /\ _ => split end; try reflexivity;
    intros Hs; split; score_cases s; cbn; try reflexivity; lia.
Qed.

Lemma tier_thresholds_witness :
  (60 <= 79 <= 79)%Z
  /\ PriorityBatchView.getScoreColor 79 = Return (tierColorClass High)
  /\ HistoryDetail.getScoreColor 79 = Return (tierColorClass High).
Proof.
  split; [lia |].
  apply (proj1 (proj2 (tier_thresholds 79))). lia.
Defined.

(** C3. For every integer score in [0,100] the tier classifier returns
    exactly one tier, the one whose band holds the score; the bands
    0..39, 40..59, 60..79, 80..100 cover [0,100] without gap and without
    overlap. *)
Theorem tier_bands_partition (s : Z) :
  (0 <= s <= 100)%Z ->
  (exists t : Tier,
      PriorityBatchView.getScoreColor s = Return (tierColorClass t)
      /\ inBand t s
      /\ (forall t', inBand t' s -> t' = t)
      /\ (forall t', PriorityBatchView.getScoreColor s = Return (tierColorClass t') -> t' = t))
  /\ (forall t : Tier,
      PriorityBatchView.getScoreColor s = Return (tierColorClass t) <-> inBand t s).
Proof.
  intros Hs. split.
  - assert (Hex : exists t, inBand t s).
    { unfold inBand.
      destruct (Z.leb_spec 80 s); [exists Critical; cbn; lia |].
      destruct (Z.leb_spec 60 s); [exists High; cbn; lia |].
      destruct (Z.leb_spec 40 s); [exists Medium; cbn; lia |].
      exists Low; cbn; lia. }
    destruct Hex as [t Ht]. exists t.
    split; [apply getScoreColor_band; assumption |].
    split; [exact Ht |].
    assert (Huniq : forall t', inBand t' s -> t' = t).
    { intros t' Ht'. unfold inBand in *.
      destruct t, t'; cbn in *; try reflexivity; lia. }
    split; [exact Huniq |].
    intros t' Hc. apply Huniq. apply getScoreColor_band; assumption.
  - intros t. apply getScoreColor_band. exact Hs.
Qed.

Lemma tier_bands_partition_witness :
  (0 <= 59 <= 100)%Z
  /\ (forall t : Tier,
      PriorityBatchView.getScoreColor 59 = Return (tierColorClass t) <-> inBand t 59).
Proof.
  split; [lia |].
  apply (proj2 (tier_bands_partition 59 ltac:(lia))).
Defined.

(** C6, as stated, at 150 and at -5: the classifier is given a score
    outside [0,100] and returns a colour; it does not fail. *)
Lemma tier_out_of_range_returns :
  ~ (0 <= 150 <= 100)%Z
  /\ PriorityBatchView.getScoreColor 150 = Return "text-red-400"
  /\ PriorityBatchView.getScoreColor 150 <> Throw "RangeError"
  /\ ~ (0 <= -5 <= 100)%Z
  /\ PriorityBatchView.getScoreColor (-5) = Return "text-green-400"
  /\ PriorityBatchView.getScoreColor (-5) <> Throw "RangeError".
Proof. repeat split; try discriminate; lia. Qed.

(** C6, amended. The tier classifier checks no range and never fails: for
    every integer score it returns the colour of one tier; a score above
    100 is drawn as the top tier and a score below 0 as the lowest one. *)
Theorem tier_classifier_never_fails (s : Z) :
  (exists t : Tier, PriorityBatchView.getScoreColor s = Return (tierColorClass t))
  /\ (forall kind, PriorityBatchView.getScoreColor s <> Throw kind)
  /\ ((100 < s)%Z -> PriorityBatchView.getScoreColor s = Return (tierColorClass Critical))
  /\ ((s < 0)%Z -> PriorityBatchView.getScoreColor s = Return (tierColorClass Low)).
Proof.
  repeat match goal with |- _ /\ _ => split end.
  - score_cases s; [exists Critical | exists High | exists Medium | exists Low]; reflexivity.
  - intros kind. score_cases s; discriminate.
  - intros Hs. score_cases s; cbn; try reflexivity; lia.
  - intros Hs. score_cases s; cbn; try reflexivity; lia.
Qed.

Lemma tier_classifier_never_fails_witness :
  (100 < 150)%Z
  /\ PriorityBatchView.getScoreColor 150 = Return (tierColorClass Critical).
Proof.
  split; [lia |].
  apply (proj1 (proj2 (proj2 (tier_classifier_never_fails 150)))). lia.
Defined.

(** ** Failed requests *)







(** ** Cross-check: the guard of the analyze action *)

(** C8. A click on the analyze action issues a request if and only if both
    the Excel file and the PowerPoint file are selected. When one is
    missing, [handleAnalyze] sets the error message and returns: no request
    is sent, and the selected files, the success flag, the loading flag and
    the results are as before. *)
Theorem analyze_requires_both_files
    (service : CrossCheckView.Request -> Reply AnalysisResult)
    (pg : CrossCheckView.Page AnalysisResult) :
  let st := CrossCheckView.view pg in
  let pg' := CrossCheckView.handleAnalyze service pg in
  let st' := CrossCheckView.view pg' in
  (is_Some (snd (CrossCheckView.handleAnalyzeStart st))
     <-> is_Some (CrossCheckView.excelFile st) /\ is_Some (CrossCheckView.pptxFile st))
  /\ (forall excel pptx,
        CrossCheckView.excelFile st = Some excel ->
        CrossCheckView.pptxFile st = Some pptx ->
        CrossCheckView.sent pg'
        = (CrossCheckView.sent pg
           ++ [CrossCheckView.mkRequest "/analyze"
                 [("file_excel", excel); ("file_ppt", pptx)]])%list)
  /\ (CrossCheckView.excelFile st = None \/ CrossCheckView.pptxFile st = None ->
        CrossCheckView.sent pg' = CrossCheckView.sent pg
        /\ CrossCheckView.error st' = VStr CrossCheckView.missingFilesMessage
        /\ CrossCheckView.excelFile st' = CrossCheckView.excelFile st
        /\ CrossCheckView.pptxFile st' = CrossCheckView.pptxFile st
        /\ CrossCheckView.success st' = CrossCheckView.success st
        /\ CrossCheckView.isLoading st' = CrossCheckView.isLoading st
        /\ CrossCheckView.analysisResults pg' = CrossCheckView.analysisResults pg).
Proof.
  cbn zeta. destruct pg as [st results log]. cbn [CrossCheckView.view].
  unfold CrossCheckView.handleAnalyze, CrossCheckView.handleAnalyzeStart.
  cbn [CrossCheckView.view CrossCheckView.analysisResults CrossCheckView.sent].
  destruct (CrossCheckView.excelFile st) as [excel |] eqn:He;
    destruct (CrossCheckView.pptxFile st) as [pptx |] eqn:Hp; cbn [snd].
  - split; [split; [intros _; split; eexists; reflexivity | intros _; eexists; reflexivity] |].
    split.
    + intros e p [= <-] [= <-].
      destruct (service _) as [body | err]; reflexivity.
    + intros [Hnone | Hnone]; discriminate Hnone.
  - split; [split; [intros [? H]; discriminate H | intros [_ [? H]]; discriminate H] |].
    split; [intros e p _ H; discriminate H |].
    intros _. cbn. rewrite He, Hp. repeat split.
  - split; [split; [intros [? H]; discriminate H | intros [[? H] _]; discriminate H] |].
    split; [intros e p H; discriminate H |].
    intros _. cbn. rewrite He, Hp. repeat split.
  - split; [split; [intros [? H]; discriminate H | intros [[? H] _]; discriminate H] |].
    split; [intros e p H; discriminate H |].
    intros _. cbn. rewrite He, Hp. repeat split.
Qed.

Lemma analyze_requires_both_files_witness :
  let service := fun _ : CrossCheckView.Request =>
                   Resolved (mkAnalysisResult [] "ok" 100) in
  let st := CrossCheckView.setExcelFile (Some (mkFile "budget.xlsx" 2048))
              CrossCheckView.initial in
  let pg := CrossCheckView.mkPage st None [] in
  let pg' := CrossCheckView.handleAnalyze service pg in
  (CrossCheckView.excelFile st = None \/ CrossCheckView.pptxFile st = None)
  /\ CrossCheckView.sent pg' = []
  /\ CrossCheckView.error (CrossCheckView.view pg')
     = VStr CrossCheckView.missingFilesMessage.
Proof.
  cbn zeta. split; [right; reflexivity |].
  pose proof (proj2 (proj2 (analyze_requires_both_files
    (fun _ => Resolved (mkAnalysisResult [] "ok" 100))
    (CrossCheckView.mkPage
       (CrossCheckView.setExcelFile (Some (mkFile "budget.xlsx" 2048))
          CrossCheckView.initial) None []))) (or_intror eq_refl)) as H.
  split; [exact (proj1 H) | exact (proj1 (proj2 H))].
Defined.

(** X6. The analyze button is disabled exactly when the guard would refuse, or
    a request is being awaited. *)
Lemma analyzeDisabled_guard (st : CrossCheckView.State) :
  CrossCheckView.isLoading st = false ->
  CrossCheckView.analyzeDisabled st = true
  <-> snd (CrossCheckView.handleAnalyzeStart st) = None.
Proof.
  intros Hl. unfold CrossCheckView.analyzeDisabled, CrossCheckView.handleAnalyzeStart.
  destruct (CrossCheckView.excelFile st), (CrossCheckView.pptxFile st); cbn;
    rewrite ?Hl; split; intros H; try reflexivity; discriminate H.
Qed.

(** ** File acceptance *)

Lemma split_nonempty (sep : ascii) (s : string) : split sep s <> [].
Proof.
  induction s as [| c rest IH]; cbn; [discriminate |].
  destruct (Ascii.eqb c sep); [discriminate |].
  destruct (split sep rest); discriminate.
Qed.

(** [pop] always finds a segment: the extension is the lower-cased text
    after the last dot, or the whole name when it has no dot. *)
Lemma extensionOf_segment (f : File) :
  exists seg, pop (split "." (fileName f)) = Some seg /\ extensionOf f = toLowerCase seg.
Proof.
  unfold extensionOf, pop.
  destruct (last (split "." (fileName f))) as [seg |] eqn:Hlast; [eauto |].
  apply last_None in Hlast. destruct (split_nonempty _ _ Hlast).
Qed.

Example extensionOf_examples :
  extensionOf (mkFile "Budget.Q3.XLSX" 10) = "xlsx"
  /\ extensionOf (mkFile "deck.pptx" 10) = "pptx"
  /\ extensionOf (mkFile "notes" 10) = "notes"
  /\ extensionOf (mkFile "archive." 10) = ""
  /\ extensionOf (mkFile "xls" 10) = "xls".
Proof. repeat split. Qed.

(** C9, as stated, fails on three paths. A file chosen with the Excel
    input of the cross-check view is accepted as the Excel file whatever its
    extension; the batch view, which has an Excel input only, refuses a
    [.pptx] file with an error; and of a drop on the batch view only the
    first file is looked at, so an Excel file dropped second is not
    accepted. *)
Lemma file_acceptance_not_by_extension_everywhere :
  let notes := mkFile "notes.txt" 12 in
  let deck := mkFile "deck.pptx" 4096 in
  let sheet := mkFile "cartera.xlsx" 2048 in
  let picked := CrossCheckView.handleFileSelect (Some notes) "excel"
                  CrossCheckView.initial in
  let refused := PriorityBatchView.validateAndSetFile (Some deck)
                   PriorityBatchView.initial in
  let dropped := PriorityBatchView.handleDrop [deck; sheet] PriorityBatchView.initial in
  extensionOf notes = "txt"
  /\ CrossCheckView.excelFile picked = Some notes
  /\ CrossCheckView.error picked = VNull
  /\ extensionOf deck = "pptx"
  /\ PriorityBatchView.file refused = None
  /\ PriorityBatchView.error refused = VStr PriorityBatchView.unsupportedMessage
  /\ extensionOf sheet = "xlsx"
  /\ PriorityBatchView.file dropped = None.
Proof. cbn. repeat split. Qed.

(** C9, amended. Every file of a drop on the cross-check view is handled
    in turn: it becomes the Excel file if and only if its final extension
    lower-cases to "xlsx" or "xls", and the PowerPoint file if and only if
    it lower-cases to "pptx"; with any other extension it sets an error
    message and leaves the selected files as they were. In the batch view
    only the first file of a drop or of a selection is looked at: it
    becomes the Excel file if and only if its extension lower-cases to
    "xlsx" or "xls"; with any other extension, "pptx" included, it sets an
    error message and leaves the selected file as it was; the other files
    of the drop are ignored, and an empty drop selects nothing and reports
    nothing. *)
Theorem dropped_files_accepted_by_extension
    (f : File) (before rest : list File)
    (cross : CrossCheckView.State) (batch : PriorityBatchView.State) :
  let ext := extensionOf f in
  let cross' := CrossCheckView.processFile cross f in
  let dropped := PriorityBatchView.handleDrop (f :: rest) batch in
  let chosen := PriorityBatchView.handleFileSelect (Some (f :: rest)) batch in
  CrossCheckView.handleDrop (before ++ f :: rest) cross
  = CrossCheckView.processFiles rest
      (CrossCheckView.processFile (CrossCheckView.handleDrop before cross) f)
  /\ (ext = "xlsx" \/ ext = "xls" ->
     cross' = CrossCheckView.setExcelFile (Some f) cross
     /\ PriorityBatchView.file dropped = Some f
     /\ PriorityBatchView.error dropped = VNull
     /\ PriorityBatchView.file chosen = Some f
     /\ PriorityBatchView.error chosen = VNull)
  /\ (ext = "pptx" -> cross' = CrossCheckView.setPptxFile (Some f) cross)
  /\ (ext <> "xlsx" -> ext <> "xls" ->
      CrossCheckView.excelFile cross' = CrossCheckView.excelFile cross
      /\ PriorityBatchView.file dropped = PriorityBatchView.file batch
      /\ PriorityBatchView.error dropped = VStr PriorityBatchView.unsupportedMessage
      /\ PriorityBatchView.file chosen = PriorityBatchView.file batch
      /\ PriorityBatchView.error chosen = VStr PriorityBatchView.unsupportedMessage)
  /\ (ext <> "pptx" ->
      CrossCheckView.pptxFile cross' = CrossCheckView.pptxFile cross)
  /\ (ext <> "xlsx" -> ext <> "xls" -> ext <> "pptx" ->
      cross' = CrossCheckView.setError
                 (VStr (CrossCheckView.unsupportedMessage ext)) cross
      /\ exists e, displayedError (CrossCheckView.error cross') = Some e)
  /\ dropped = PriorityBatchView.handleDrop [f] batch
  /\ chosen = PriorityBatchView.handleFileSelect (Some [f]) batch
  /\ PriorityBatchView.handleDrop [] batch = PriorityBatchView.setIsDragging false batch
  /\ PriorityBatchView.handleFileSelect (Some []) batch = batch
  /\ PriorityBatchView.handleFileSelect None batch = batch.
Proof.
  cbn zeta. split.
  { unfold CrossCheckView.handleDrop, CrossCheckView.processFiles.
    rewrite fold_left_app. reflexivity. }
  unfold CrossCheckView.processFile, PriorityBatchView.handleDrop,
    PriorityBatchView.handleFileSelect, PriorityBatchView.validateAndSetFile.
  cbn [head mbind option_bind].
  destruct (String.eqb_spec (extensionOf f) "xlsx") as [Hx | Hx],
           (String.eqb_spec (extensionOf f) "xls") as [Hs | Hs],
           (String.eqb_spec (extensionOf f) "pptx") as [Hp | Hp];
    cbn [orb];
    repeat match goal with |- _ /\ _ => split end; intros;
    repeat match goal with H : _ \/ _ |- _ => destruct H end;
    try congruence;
    repeat match goal with |- _ /\ _ => split end;
    try reflexivity.
  unfold displayedError. cbn. eauto.
Qed.

Lemma dropped_files_accepted_by_extension_witness :
  let f := mkFile "Portafolio.XLSX" 5120 in
  let later := [mkFile "notas.txt" 3] in
  (extensionOf f = "xlsx" \/ extensionOf f = "xls")
  /\ CrossCheckView.processFile CrossCheckView.initial f
     = CrossCheckView.setExcelFile (Some f) CrossCheckView.initial
  /\ PriorityBatchView.file
       (PriorityBatchView.handleDrop (f :: later) PriorityBatchView.initial)
     = Some f
  /\ PriorityBatchView.error
       (PriorityBatchView.handleDrop (f :: later) PriorityBatchView.initial)
     = VNull.
Proof.
  cbn zeta. split; [left; reflexivity |].
  pose proof (proj1 (proj2 (dropped_files_accepted_by_extension
    (mkFile "Portafolio.XLSX" 5120) [] [mkFile "notas.txt" 3]
    CrossCheckView.initial PriorityBatchView.initial))
    (or_introl eq_refl)) as H.
  cbn zeta in H.
  split; [exact (proj1 H) |].
  split; [exact (proj1 (proj2 H)) | exact (proj1 (proj2 (proj2 H)))].
Defined.

(** A drop of several files handles each in turn: the files with a known
    extension are taken, and one unknown extension leaves its message. *)
Example handleDrop_example :
  let st := CrossCheckView.handleDrop
              [mkFile "a.xlsx" 1; mkFile "b.txt" 2; mkFile "c.PPTX" 3]
              CrossCheckView.initial in
  CrossCheckView.excelFile st = Some (mkFile "a.xlsx" 1)
  /\ CrossCheckView.pptxFile st = Some (mkFile "c.PPTX" 3)
  /\ CrossCheckView.error st
     = VStr "Tipo de archivo no soportado: .txt. Solo se aceptan .xlsx y .pptx.".
Proof. cbn. repeat split. Qed.

(** ** Single-project scorer: results and slider changes *)

(** Every slider change clears the displayed result. *)
Lemma slider_change_clears_result (field : string) (v : Z) (st : ProjectScorer.State) :
  ProjectScorer.result (ProjectScorer.handleSliderChange field v st) = None
  /\ ProjectScorer.formData (ProjectScorer.handleSliderChange field v st) !! field = Some v.
Proof.
  split; [reflexivity |].
  cbn. apply lookup_insert_eq.
Qed.

(** X15. In a session where no slider moves while a request is awaited, a
    displayed result is never stale. *)
Lemma calm_sessions_are_fresh (events : list ProjectScorer.Event) (s : ProjectScorer.Session) :
  ProjectScorer.calmTrace ProjectScorer.start events s -> ProjectScorer.fresh s.
Proof.
  assert (Hinv : forall s0 es s1,
    ProjectScorer.calmTrace s0 es s1 ->
    ProjectScorer.fresh s0 ->
    (forall b, ProjectScorer.inFlight s0 = Some b
               -> b = ProjectScorer.formData (ProjectScorer.ui s0)) ->
    ProjectScorer.fresh s1).
  { intros s0 es s1 Htrace.
    induction Htrace as [s0 | s0 s1 s2 e rest Hstep Hcalm Htrace IH]; intros Hfresh Hbody.
    - exact Hfresh.
    - apply IH.
      + destruct e as [field v | | reply]; cbn in Hstep.
        * destruct (_ && _)%bool; [| discriminate Hstep].
          injection Hstep as <-. intros r Hr. discriminate Hr.
        * destruct (ProjectScorer.isLoading (ProjectScorer.ui s0)); [discriminate Hstep |].
          injection Hstep as <-. intros r Hr. cbn in *. apply (Hfresh r Hr).
        * destruct (ProjectScorer.inFlight s0) as [body |] eqn:Hfl; [| discriminate Hstep].
          injection Hstep as <-. intros r Hr.
          destruct reply as [res | err]; cbn in *.
          -- f_equal. apply Hbody. reflexivity.
          -- apply (Hfresh r Hr).
      + destruct e as [field v | | reply]; cbn in Hstep.
        * destruct (_ && _)%bool; [| discriminate Hstep].
          injection Hstep as <-. cbn. rewrite (Hcalm field v eq_refl).
          intros b Hb. discriminate Hb.
        * destruct (ProjectScorer.isLoading (ProjectScorer.ui s0)); [discriminate Hstep |].
          injection Hstep as <-. cbn. intros b [= <-]. reflexivity.
        * destruct (ProjectScorer.inFlight s0) as [body |]; [| discriminate Hstep].
          injection Hstep as <-. cbn. intros b Hb. discriminate Hb. }
  intros Htrace. apply (Hinv _ _ _ Htrace).
  - intros r Hr. discriminate Hr.
  - intros b Hb. discriminate Hb.
Qed.

(** C10, at the failing session: the user clicks "Calculate", moves the
    ROI slider to 90 while the request is awaited, and the response
    arrives. The result computed from ROI 50 is displayed beside a slider
    that reads 90. *)
Theorem stale_result_after_change_in_flight (r : PriorityResult) :
  exists s : ProjectScorer.Session,
    ProjectScorer.run ProjectScorer.start
      [ProjectScorer.ClickCalculate;
       ProjectScorer.SliderChange "roi" 90;
       ProjectScorer.Settle (Resolved r)] = Some s
    /\ ProjectScorer.result (ProjectScorer.ui s) = Some r
    /\ ProjectScorer.formData (ProjectScorer.ui s) !! "roi" = Some 90%Z
    /\ (exists sent, ProjectScorer.shownFor s = Some sent /\ sent !! "roi" = Some 50%Z)
    /\ ~ ProjectScorer.fresh s.
Proof.
  eexists. split; [reflexivity |].
  split; [reflexivity |].
  split; [reflexivity |].
  split; [eexists; split; reflexivity |].
  intros Hfresh. specialize (Hfresh r eq_refl).
  apply (f_equal (fun shown : option (gmap string Z) =>
                    shown ≫= (fun body => body !! "roi"))) in Hfresh.
  vm_compute in Hfresh. discriminate Hfresh.
Qed.

(** ** Score aggregator *)

Section Aggregator.
Import Contract.

Lemma sumContributions_cons (kd : string * BreakdownEntry)
    (b : list (string * BreakdownEntry)) :
  sumContributions (kd :: b) = (contribution (snd kd) + sumContributions b)%Z.
Proof. reflexivity. Qed.

Lemma sumContributions_app (b1 b2 : list (string * BreakdownEntry)) :
  sumContributions (b1 ++ b2) = (sumContributions b1 + sumContributions b2)%Z.
Proof.
  induction b1 as [| kd b1 IH]; [reflexivity |].
  cbn [app]. rewrite !sumContributions_cons, IH. lia.
Qed.

Lemma sumContributions_insert (b : list (string * BreakdownEntry)) (i : nat)
    (key : string) (e : BreakdownEntry) (d : Z) :
  b !! i = Some (key, e) ->
  sumContributions (<[i := (key, mkEntry (value e) (contribution e + d))]> b)
  = (sumContributions b + d)%Z.
Proof.
  intros Hi.
  rewrite insert_take_drop by (eapply lookup_lt_Some; exact Hi).
  rewrite <- (take_drop_middle b i (key, e) Hi) at 3.
  rewrite !sumContributions_app, !sumContributions_cons. cbn [snd contribution]. lia.
Qed.

Lemma largestIndex_lt (b : list (string * BreakdownEntry)) :
  b <> [] -> (largestIndex b < length b)%nat.
Proof.
  induction b as [| [key e] rest IH]; [congruence |].
  intros _. cbn [largestIndex length].
  destruct (rest !! largestIndex rest) as [[key' e'] |] eqn:Hj; [| lia].
  apply lookup_lt_Some in Hj.
  destruct (contribution e <? contribution e')%Z; lia.
Qed.

(** The largest contributor is one: no entry contributes more. *)
Lemma largestIndex_max (b : list (string * BreakdownEntry)) (key : string) (e : BreakdownEntry) :
  b !! largestIndex b = Some (key, e) ->
  Forall (fun kd => (contribution (snd kd) <= contribution e)%Z) b.
Proof.
  revert key e. induction b as [| [k0 e0] rest IH]; intros key e Hl; [constructor |].
  cbn [largestIndex] in Hl.
  destruct (rest !! largestIndex rest) as [[k1 e1] |] eqn:Hj.
  - specialize (IH k1 e1 eq_refl).
    destruct (Z.ltb_spec (contribution e0) (contribution e1)).
    + change (rest !! largestIndex rest = Some (key, e)) in Hl.
      rewrite Hj in Hl. injection Hl as <- <-.
      constructor; [cbn; lia | exact IH].
    + cbn in Hl. injection Hl as <- <-.
      constructor; [cbn; lia |].
      eapply Forall_impl; [exact IH |]. cbn. intros kd Hkd. lia.
  - cbn in Hl. injection Hl as <- <-.
    destruct rest as [| kd rest']; [constructor; [cbn; lia | constructor] |].
    exfalso. assert (Hlt : (largestIndex (kd :: rest') < length (kd :: rest'))%nat)
      by (apply largestIndex_lt; congruence).
    apply lookup_lt_is_Some in Hlt. rewrite Hj in Hlt. destruct Hlt as [? Hx].
    discriminate Hx.
Qed.

Lemma reconcile_sum (b : list (string * BreakdownEntry)) (d : Z) :
  b <> [] -> sumContributions (reconcile d b) = (sumContributions b + d)%Z.
Proof.
  intros Hne. unfold reconcile.
  pose proof (largestIndex_lt b Hne) as Hlt.
  apply lookup_lt_is_Some in Hlt. destruct Hlt as [[key e] Hi].
  rewrite Hi. apply sumContributions_insert. exact Hi.
Qed.

Lemma reconcile_keys (b : list (string * BreakdownEntry)) (d : Z) :
  map fst (reconcile d b) = map fst b
  /\ map (fun kd => value (snd kd)) (reconcile d b) = map (fun kd => value (snd kd)) b.
Proof.
  unfold reconcile.
  destruct (b !! largestIndex b) as [[key e] |] eqn:Hi; [| split; reflexivity].
  rewrite !list_fmap_insert. cbn.
  split; apply list_insert_id; rewrite list_lookup_fmap, Hi; reflexivity.
Qed.

Lemma breakdownOf_valid (ws : list (string * Z)) (factors : gmap string Z) :
  validFactors ws factors ->
  exists b, breakdownOf ws factors = Return b /\ map fst b = map fst ws.
Proof.
  unfold validFactors. induction 1 as [| [key w] rest Hhead Hrest IH].
  - exists []. split; reflexivity.
  - destruct Hhead as (v & Hv & Hrange). cbn in Hv.
    destruct IH as (b & Hb & Hkeys).
    exists ((key, mkEntry v (contributionOf v w)) :: b).
    cbn [breakdownOf]. rewrite Hv.
    replace ((0 <=? v)%Z && (v <=? 100)%Z)%bool with true
      by (symmetry; apply andb_true_iff; split; apply Z.leb_le; lia).
    rewrite Hb. cbn. rewrite Hkeys. split; reflexivity.
Qed.

Lemma tierFor_covers (bands : list (Z * (string * string))) (s : Z) :
  coversScores bands -> (0 <= s)%Z -> exists named, tierFor bands s = Return named.
Proof.
  unfold coversScores. induction 1 as [[lower named] rest Hhere | [lower named] rest Hlater IH];
    intros Hs; cbn [tierFor].
  - cbn in Hhere. destruct (Z.leb_spec lower s); [eauto | lia].
  - destruct (Z.leb_spec lower s); [eauto | apply IH; exact Hs].
Qed.

(** The contributions the scorer view prints are those of the breakdown. *)
Lemma displayedBreakdown_sum (b : list (string * BreakdownEntry)) :
  foldr Z.add 0%Z (map snd (map (fun kd => (fst kd, value (snd kd), contribution (snd kd))) b))
  = sumContributions b.
Proof.
  induction b as [| kd b IH]; [reflexivity |].
  rewrite sumContributions_cons, <- IH. reflexivity.
Qed.

Lemma clamp_range (x : Z) : (0 <= clamp 0 100 x <= 100)%Z.
Proof. unfold clamp. lia. Qed.

End Aggregator.

(** On a valid factor set [aggregate] returns, and the reconciled
    breakdown sums to the score. *)
Lemma aggregate_reconciled (cfg : Contract.Config) (factors : gmap string Z) :
  Contract.validFactors (Contract.weights cfg) factors ->
  Contract.coversScores (Contract.tiers cfg) ->
  exists r : PriorityResult,
    Contract.aggregate cfg factors = Return r
    /\ Contract.sumContributions (breakdown r) = score r
    /\ (0 <= score r <= 100)%Z
    /\ map fst (breakdown r) = map fst (Contract.weights cfg)
    /\ foldr Z.add 0%Z (map snd (ProjectScorer.displayedBreakdown r))
       = ProjectScorer.displayedScore r.
Proof.
  intros Hvalid Hcover.
  destruct (breakdownOf_valid _ _ Hvalid) as (b & Hb & Hkeys).
  destruct (tierFor_covers _ (Contract.clamp 0 100 (Contract.sumContributions b)) Hcover)
    as (named & Hnamed); [apply clamp_range |].
  assert (Hsum :
    Contract.sumContributions
      (Contract.reconcile
         (Contract.clamp 0 100 (Contract.sumContributions b) - Contract.sumContributions b) b)
    = Contract.clamp 0 100 (Contract.sumContributions b)).
  { destruct b as [| kd b']; [reflexivity |].
    rewrite reconcile_sum by congruence. lia. }
  eexists. unfold Contract.aggregate. rewrite Hb. cbn [Js.bind]. rewrite Hnamed.
  cbn [Js.bind]. split; [reflexivity |].
  cbn [breakdown score ProjectScorer.displayedScore ProjectScorer.displayedBreakdown].
  split; [exact Hsum |].
  split; [apply clamp_range |].
  split; [rewrite (proj1 (reconcile_keys _ _)); exact Hkeys |].
  unfold ProjectScorer.displayedBreakdown, ProjectScorer.displayedScore.
  cbn [breakdown score]. rewrite displayedBreakdown_sum. exact Hsum.
Qed.

(** C5. For every valid factor set the score aggregator returns a
    PriorityResult in which the per-factor contributions sum to the final
    score exactly: the residual between the clamped score and the sum of
    the rounded contributions is assigned to the largest contributor. The
    score is an integer in [0,100], the breakdown has one entry per
    weighted factor, and the contributions the scorer view prints add up to
    the score it prints. *)
Theorem contributions_sum_to_score (cfg : Contract.Config) (factors : gmap string Z) :
  Contract.validFactors (Contract.weights cfg) factors ->
  Contract.coversScores (Contract.tiers cfg) ->
  exists r : PriorityResult,
    Contract.aggregate cfg factors = Return r
    /\ Contract.sumContributions (breakdown r) = score r
    /\ (0 <= score r <= 100)%Z
    /\ map fst (breakdown r) = map fst (Contract.weights cfg)
    /\ foldr Z.add 0%Z (map snd (ProjectScorer.displayedBreakdown r))
       = ProjectScorer.displayedScore r.
Proof. apply aggregate_reconciled. Qed.

Lemma contributions_sum_to_score_witness :
  let factors : gmap string Z :=
    list_to_map [("roi", 0); ("urgency", 0); ("risk", 100);
                 ("strategic_alignment", 0); ("resource_availability", 0)]%Z in
  Contract.validFactors (Contract.weights Contract.exampleConfig) factors
  /\ Contract.coversScores (Contract.tiers Contract.exampleConfig)
  /\ exists r : PriorityResult,
       Contract.aggregate Contract.exampleConfig factors = Return r
       /\ Contract.sumContributions (breakdown r) = score r.
Proof.
  cbn zeta.
  assert (Hvalid : Contract.validFactors (Contract.weights Contract.exampleConfig)
            (list_to_map [("roi", 0); ("urgency", 0); ("risk", 100);
                          ("strategic_alignment", 0); ("resource_availability", 0)]%Z)).
  { repeat constructor; eexists; (split; [vm_compute; reflexivity | cbn; lia]). }
  assert (Hcover : Contract.coversScores (Contract.tiers Contract.exampleConfig)).
  { unfold Contract.coversScores. cbn.
    do 3 apply Exists_cons_tl. apply Exists_cons_hd. cbn. lia. }
  split; [exact Hvalid |]. split; [exact Hcover |].
  destruct (contributions_sum_to_score Contract.exampleConfig _ Hvalid Hcover)
    as (r & Hr & Hsum & _).
  exists r. split; [exact Hr | exact Hsum].
Defined.

(** The pinned fixture of the spec, and a factor set on which the clamp
    bites: risk alone drives the rounded sum to -15, the score is clamped
    to 0 and the residual 15 goes to the first of the largest
    contributors. *)
Example aggregate_examples :
  let fixture : gmap string Z :=
    list_to_map [("roi", 90); ("urgency", 80); ("risk", 20);
                 ("strategic_alignment", 70); ("resource_availability", 60)]%Z in
  let risky : gmap string Z :=
    list_to_map [("roi", 0); ("urgency", 0); ("risk", 100);
                 ("strategic_alignment", 0); ("resource_availability", 0)]%Z in
  (exists r, Contract.aggregate Contract.exampleConfig fixture = Return r
             /\ score r = 64%Z /\ tier r = "High"
             /\ map (fun kd => contribution (snd kd)) (breakdown r) = [27; 20; -3; 14; 6]%Z)
  /\ (exists r, Contract.aggregate Contract.exampleConfig risky = Return r
                /\ score r = 0%Z /\ tier r = "Low"
                /\ map (fun kd => contribution (snd kd)) (breakdown r) = [15; 0; -15; 0; 0]%Z)
  /\ Contract.aggregate Contract.exampleConfig (<["roi" := 101%Z]> fixture) = Throw "RangeError"
  /\ Contract.aggregate Contract.exampleConfig (delete "risk" fixture) = Throw "ValidationError".
Proof.
  cbn zeta. split; [eexists; split; [vm_compute; reflexivity | repeat split] |].
  split; [eexists; split; [vm_compute; reflexivity | repeat split] |].
  split; vm_compute; reflexivity.
Qed.

(** ** Batch result assembler *)

Section Assembler.
Import Contract.

Lemma insertByScore_perm (x : ProjectResult) (l : list ProjectResult) :
  insertByScore x l ≡ₚ x :: l.
Proof.
  induction l as [| y l IH]; cbn; [reflexivity |].
  destruct (projectScore y <=? projectScore x)%Z; [reflexivity |].
  rewrite IH. apply Permutation_swap.
Qed.

Lemma sortByScoreDesc_perm (l : list ProjectResult) : sortByScoreDesc l ≡ₚ l.
Proof.
  induction l as [| x l IH]; cbn; [reflexivity |].
  rewrite insertByScore_perm, IH. reflexivity.
Qed.

Lemma insertByScore_sorted (x : ProjectResult) (l : list ProjectResult) :
  StronglySorted scoresDescend l -> StronglySorted scoresDescend (insertByScore x l).
Proof.
  induction l as [| y l IH]; intros Hs; cbn.
  - repeat constructor.
  - apply StronglySorted_cons in Hs as [Hy Hl].
    destruct (Z.leb_spec (projectScore y) (projectScore x)) as [Hle | Hlt].
    + apply StronglySorted_cons. split.
      * constructor; [exact Hle |].
        eapply Forall_impl; [exact Hy |]. unfold scoresDescend. intros z Hz. lia.
      * apply StronglySorted_cons. split; assumption.
    + apply StronglySorted_cons. split; [| apply IH; exact Hl].
      rewrite insertByScore_perm. constructor; [unfold scoresDescend; lia | exact Hy].
Qed.

Lemma sortByScoreDesc_sorted (l : list ProjectResult) :
  StronglySorted scoresDescend (sortByScoreDesc l).
Proof.
  induction l as [| x l IH]; cbn; [constructor |].
  apply insertByScore_sorted. exact IH.
Qed.

Lemma StronglySorted_lookup_lt {A} (R : A -> A -> Prop) (l : list A) (i j : nat) (a b : A) :
  StronglySorted R l -> (i < j)%nat -> l !! i = Some a -> l !! j = Some b -> R a b.
Proof.
  intros Hs. revert i j. induction Hs as [| x l Hs IH Hall]; intros i j Hij Hi Hj.
  - discriminate Hi.
  - destruct j as [| j]; [lia |]. cbn in Hj.
    destruct i as [| i].
    + cbn in Hi. injection Hi as <-.
      rewrite Forall_lookup in Hall. eapply Hall. exact Hj.
    + cbn in Hi. apply (IH i j); [lia | assumption | assumption].
Qed.

(** Stability: the projects of any one score keep their order. *)
Lemma insertByScore_stable (v : Z) (x : ProjectResult) (l : list ProjectResult) :
  filter (fun p => projectScore p = v) (insertByScore x l)
  = filter (fun p => projectScore p = v) (x :: l).
Proof.
  induction l as [| y l IH]; cbn [insertByScore]; [reflexivity |].
  destruct (Z.leb_spec (projectScore y) (projectScore x)) as [Hle | Hlt]; [reflexivity |].
  rewrite (filter_cons _ y), IH, !(filter_cons _ x), (filter_cons _ y).
  destruct (decide (projectScore y = v)) as [Hy | Hy];
    destruct (decide (projectScore x = v)) as [Hx | Hx]; try reflexivity.
  lia.
Qed.

Lemma sortByScoreDesc_stable (v : Z) (l : list ProjectResult) :
  filter (fun p => projectScore p = v) (sortByScoreDesc l)
  = filter (fun p => projectScore p = v) l.
Proof.
  induction l as [| x l IH]; cbn [sortByScoreDesc]; [reflexivity |].
  rewrite insertByScore_stable, !(filter_cons _ x), IH. reflexivity.
Qed.

Lemma scoreAll_ids (cfg : Config) (ps : list Project) (scored : list ProjectResult) :
  scoreAll cfg ps = Return scored -> map id scored = map projectId ps.
Proof.
  revert scored. induction ps as [| p ps IH]; intros scored Hrun; cbn in Hrun.
  - injection Hrun as <-. reflexivity.
  - unfold scoreProject in Hrun.
    destruct (aggregate cfg (factors p)) as [r | kind]; [| discriminate Hrun].
    cbn in Hrun.
    destruct (scoreAll cfg ps) as [rs | kind]; [| discriminate Hrun].
    cbn in Hrun. injection Hrun as <-. cbn. rewrite (IH rs eq_refl). reflexivity.
Qed.

Lemma renderRowsFrom_in_order (ps : list ProjectResult) (k : nat) :
  Forall (fun p => is_Some (PriorityBatchView.entryOf "roi" (breakdown (priority p)))
                   /\ is_Some (PriorityBatchView.entryOf "urgency" (breakdown (priority p))))
         ps ->
  exists rows,
    PriorityBatchView.renderRowsFrom k ps = Return rows
    /\ map PriorityBatchView.project rows = ps
    /\ map PriorityBatchView.rank rows
       = map (fun index => Z.of_nat index + 1)%Z (seq k (length ps)).
Proof.
  intros Hall. revert k. induction Hall as [| p ps [[roi Hroi] [urgency Hurg]] _ IH]; intros k.
  - exists []. repeat split.
  - destruct (IH (S k)) as (rows & Hrows & Hprojects & Hranks).
    assert (Hcolor : exists c, PriorityBatchView.getScoreColor (projectScore p) = Return c).
    { unfold PriorityBatchView.getScoreColor.
      destruct (_ >=? 80)%Z; [eauto |]. destruct (_ >=? 60)%Z; [eauto |].
      destruct (_ >=? 40)%Z; eauto. }
    destruct Hcolor as [c Hc].
    eexists. cbn [PriorityBatchView.renderRowsFrom]. unfold PriorityBatchView.renderRow.
    rewrite Hroi, Hurg, Hc. cbn [Js.bind]. rewrite Hrows. cbn [Js.bind].
    split; [reflexivity |]. cbn. rewrite Hprojects, Hranks. split; reflexivity.
Qed.

End Assembler.

Lemma scoreAll_valid (cfg : Contract.Config) (ps : list Contract.Project) :
  Forall (fun p => Contract.validFactors (Contract.weights cfg) (Contract.factors p)) ps ->
  Contract.coversScores (Contract.tiers cfg) ->
  exists scored, Contract.scoreAll cfg ps = Return scored.
Proof.
  intros Hall Hcover. induction Hall as [| p ps Hp Hps IH].
  - exists []. reflexivity.
  - destruct (aggregate_reconciled cfg _ Hp Hcover) as (r & Hr & _).
    destruct IH as (rs & Hrs).
    eexists. cbn [Contract.scoreAll]. unfold Contract.scoreProject.
    rewrite Hr. cbn [Js.bind]. rewrite Hrs. reflexivity.
Qed.

(** C4. Every BatchResult the assembler produces is ranked: its results
    are the scored projects in non-increasing order of score, projects of
    equal score keep their input order, and totalProjects is the length of
    the results. The assembler does produce one whenever every factor set
    is valid. *)
Theorem batch_ranking_sorted_stable (cfg : Contract.Config) (ps : list Contract.Project) :
  (Forall (fun p => Contract.validFactors (Contract.weights cfg) (Contract.factors p)) ps ->
   Contract.coversScores (Contract.tiers cfg) ->
   exists r, Contract.assemble cfg ps = Return r)
  /\ (forall r : BatchResult,
      Contract.assemble cfg ps = Return r ->
      exists scored : list ProjectResult,
        Contract.scoreAll cfg ps = Return scored
        /\ map id scored = map Contract.projectId ps
        /\ results r ≡ₚ scored
        /\ (forall (i j : nat) (a b : ProjectResult),
              (i < j)%nat -> results r !! i = Some a -> results r !! j = Some b ->
              (projectScore b <= projectScore a)%Z)
        /\ (forall v : Z,
              filter (fun p => projectScore p = v) (results r)
              = filter (fun p => projectScore p = v) scored)
        /\ total_projects r = Z.of_nat (length (results r))).
Proof.
  split.
  - intros Hall Hcover. destruct (scoreAll_valid cfg ps Hall Hcover) as (scored & Hs).
    eexists. unfold Contract.assemble. rewrite Hs. reflexivity.
  - intros r Hrun. unfold Contract.assemble in Hrun.
    destruct (Contract.scoreAll cfg ps) as [scored | kind] eqn:Hs; [| discriminate Hrun].
    cbn in Hrun. injection Hrun as <-. exists scored. cbn [results total_projects].
    split; [reflexivity |].
    split; [apply (scoreAll_ids cfg); exact Hs |].
    split; [apply sortByScoreDesc_perm |].
    split.
    { intros i j a b Hij Hi Hj.
      apply (StronglySorted_lookup_lt Contract.scoresDescend
               (Contract.sortByScoreDesc scored) i j a b);
        [apply sortByScoreDesc_sorted | assumption ..]. }
    split; [intros v; apply sortByScoreDesc_stable |].
    reflexivity.
Qed.

Lemma batch_ranking_sorted_stable_witness :
  Forall (fun p => Contract.validFactors (Contract.weights Contract.exampleConfig)
                     (Contract.factors p)) Contract.exampleBatch
  /\ Contract.coversScores (Contract.tiers Contract.exampleConfig)
  /\ exists r : BatchResult,
       Contract.assemble Contract.exampleConfig Contract.exampleBatch = Return r
       /\ map id (results r) = ["B"; "C"; "A"]
       /\ map projectScore (results r) = [82; 82; 55]%Z
       /\ total_projects r = Z.of_nat (length (results r)).
Proof.
  assert (Hall : Forall (fun p => Contract.validFactors
                                    (Contract.weights Contract.exampleConfig)
                                    (Contract.factors p)) Contract.exampleBatch).
  { repeat constructor; eexists; (split; [vm_compute; reflexivity | cbn; lia]). }
  assert (Hcover : Contract.coversScores (Contract.tiers Contract.exampleConfig)).
  { unfold Contract.coversScores. cbn.
    do 3 apply Exists_cons_tl. apply Exists_cons_hd. cbn. lia. }
  split; [exact Hall |]. split; [exact Hcover |].
  destruct (batch_ranking_sorted_stable Contract.exampleConfig Contract.exampleBatch)
    as [Hreturns Hranked].
  destruct (Hreturns Hall Hcover) as [r Hr].
  destruct (Hranked r Hr) as (scored & _ & _ & _ & _ & _ & Htotal).
  exists r. split; [exact Hr |].
  assert (Hr' := Hr). vm_compute in Hr'. injection Hr' as <-.
  split; [reflexivity |]. split; [reflexivity |]. reflexivity.
Defined.

(** The example scenario: scores [55, 82, 82] rank as the first-seen 82,
    the second-seen 82, then 55. *)
Example ranking_example :
  exists r, Contract.assemble Contract.exampleConfig Contract.exampleBatch = Return r
    /\ map (fun p => (id p, projectScore p)) (results r)
       = [("B", 82); ("C", 82); ("A", 55)]%Z
    /\ total_projects r = 3%Z
    /\ (exists rows, PriorityBatchView.renderRows r = Return rows
                     /\ map PriorityBatchView.rank rows = [1; 2; 3]%Z
                     /\ map PriorityBatchView.roiCell rows = [100; 100; 100]%Z).
Proof.
  eexists. split; [vm_compute; reflexivity |]. split; [reflexivity |].
  split; [reflexivity |]. eexists. split; [vm_compute; reflexivity |]. split; reflexivity.
Qed.

(** The batch view draws a ranking in the order of the response when every
    project has its ROI and urgency entries; a project without one makes
    the table throw. *)
Lemma renderRows_in_response_order (r : BatchResult) :
  Forall (fun p => is_Some (PriorityBatchView.entryOf "roi" (breakdown (priority p)))
                   /\ is_Some (PriorityBatchView.entryOf "urgency" (breakdown (priority p))))
         (results r) ->
  exists rows,
    PriorityBatchView.renderRows r = Return rows
    /\ map PriorityBatchView.project rows = results r
    /\ map PriorityBatchView.rank rows
       = map (fun index => Z.of_nat index + 1)%Z (seq 0 (length (results r))).
Proof. intros Hall. apply (renderRowsFrom_in_order (results r) 0 Hall). Qed.

Example renderRows_missing_entry :
  PriorityBatchView.renderRows
    (mkBatchResult 1
       [mkProjectResult "A" "Medidores" "Redes" "Rojas"
          (mkPriorityResult 0 "Low" "green" [("risk", mkEntry 100 0)] "Low priority")])
  = Throw "TypeError".
Proof. reflexivity. Qed.

(** An invalid project fails the whole batch: no partial result. *)
Example assemble_atomic :
  Contract.assemble Contract.exampleConfig
    (Contract.exampleBatch ++ [Contract.mkProject "D" "Sin datos" "TI" "Diaz" ∅])
  = Throw "ValidationError".
Proof. vm_compute. reflexivity. Qed.

(** * Further properties of the views *)

(** ** File names and extensions *)

Lemma split_app_sep (sep : ascii) (a b : string) :
  split sep (a ++ String sep b) = (split sep a ++ split sep b)%list.
Proof.
  induction a as [| c a IH].
  - change ("" +:+ String sep b) with (String sep b). cbn [split].
    rewrite Ascii.eqb_refl. reflexivity.
  - change (String c a +:+ String sep b) with (String c (a +:+ String sep b)).
    cbn [split]. rewrite IH. destruct (Ascii.eqb c sep); [reflexivity |].
    pose proof (split_nonempty sep a) as Hne.
    destruct (split sep a) as [| seg segs]; [congruence | reflexivity].
Qed.

Lemma split_without_sep (sep : ascii) (s : string) :
  occursIn sep s = false -> split sep s = [s].
Proof.
  induction s as [| c s IH]; cbn; [reflexivity |].
  intros Hocc. apply orb_false_iff in Hocc as [Hc Hs].
  rewrite Hc, (IH Hs). reflexivity.
Qed.

(** X1. The extension is the lower-cased text after the last dot; a name
    without a dot is its own extension. *)
Theorem extensionOf_after_last_dot (base ext : string) (size : Z) :
  occursIn "." ext = false ->
  extensionOf (mkFile (base ++ String "." ext) size) = toLowerCase ext
  /\ extensionOf (mkFile ext size) = toLowerCase ext.
Proof.
  intros Hdot. unfold extensionOf, pop. cbn [fileName].
  rewrite split_app_sep, (split_without_sep _ _ Hdot), last_snoc.
  split; reflexivity.
Qed.

Lemma extensionOf_after_last_dot_witness :
  occursIn "." "XLSX" = false
  /\ extensionOf (mkFile "informe.final.XLSX" 10) = "xlsx"
  /\ extensionOf (mkFile "XLSX" 10) = "xlsx".
Proof.
  split; [reflexivity |].
  apply (extensionOf_after_last_dot "informe.final" "XLSX" 10). reflexivity.
Defined.

Lemma lowerAscii_dot (c : ascii) : Ascii.eqb (lowerAscii c) "." = Ascii.eqb c ".".
Proof. destruct c as [[] [] [] [] [] [] [] []]; reflexivity. Qed.

Lemma lowerAscii_idempotent (c : ascii) : lowerAscii (lowerAscii c) = lowerAscii c.
Proof. destruct c as [[] [] [] [] [] [] [] []]; reflexivity. Qed.

Lemma toLowerCase_idempotent (s : string) : toLowerCase (toLowerCase s) = toLowerCase s.
Proof.
  induction s as [| c s IH]; cbn; [reflexivity |].
  rewrite lowerAscii_idempotent, IH. reflexivity.
Qed.

Lemma split_toLowerCase (s : string) :
  split "." (toLowerCase s) = map toLowerCase (split "." s).
Proof.
  induction s as [| c s IH]; cbn [toLowerCase split]; [reflexivity |].
  rewrite lowerAscii_dot, IH.
  destruct (Ascii.eqb c "."); [reflexivity |].
  destruct (split "." s) as [| seg segs]; reflexivity.
Qed.

(** X2. For a file whose name is made of ASCII characters, acceptance does
    not depend on the case of the name: the file and the same file renamed
    to lower case have the same extension, so each view takes both or
    refuses both. (Outside ASCII the lower-casing of a name depends on the
    characters around a letter, and the two extensions can differ.) *)
Theorem extensionOf_ignores_case (name : string) (size size' : Z) :
  asciiOnly name = true ->
  extensionOf (mkFile (toLowerCase name) size) = extensionOf (mkFile name size')
  /\ PriorityBatchView.isExcel (mkFile (toLowerCase name) size)
     = PriorityBatchView.isExcel (mkFile name size')
  /\ (excelExtension (mkFile (toLowerCase name) size) <-> excelExtension (mkFile name size'))
  /\ (pptxExtension (mkFile (toLowerCase name) size) <-> pptxExtension (mkFile name size')).
Proof.
  intros _.
  assert (Hext : extensionOf (mkFile (toLowerCase name) size)
                 = extensionOf (mkFile name size')).
  { unfold extensionOf, pop. cbn [fileName].
    rewrite split_toLowerCase, fmap_last.
    destruct (last (split "." name)) as [seg |]; cbn; [| reflexivity].
    apply toLowerCase_idempotent. }
  unfold PriorityBatchView.isExcel, pptxExtension, excelExtension.
  rewrite Hext. repeat split; tauto.
Qed.

Lemma extensionOf_ignores_case_witness :
  asciiOnly "Cartera.Q3.XLSX" = true
  /\ extensionOf (mkFile (toLowerCase "Cartera.Q3.XLSX") 10)
     = extensionOf (mkFile "Cartera.Q3.XLSX" 10).
Proof.
  split; [reflexivity |].
  apply (proj1 (extensionOf_ignores_case "Cartera.Q3.XLSX" 10 10 eq_refl)).
Defined.

(** ** Cross-check view: drops, removals and the analyze action *)

Lemma processFiles_snoc (files : list File) (f : File) (st : CrossCheckView.State) :
  CrossCheckView.processFiles (files ++ [f])%list st
  = CrossCheckView.processFile (CrossCheckView.processFiles files st) f.
Proof. unfold CrossCheckView.processFiles. apply fold_left_app. Qed.

(** How [processFile] treats a file of each kind. *)
Lemma processFile_kinds (st : CrossCheckView.State) (f : File) :
  (excelExtension f ->
     CrossCheckView.processFile st f = CrossCheckView.setExcelFile (Some f) st)
  /\ (pptxExtension f ->
     CrossCheckView.processFile st f = CrossCheckView.setPptxFile (Some f) st)
  /\ (unsupportedExtension f ->
     CrossCheckView.processFile st f
     = CrossCheckView.setError
         (VStr (CrossCheckView.unsupportedMessage (extensionOf f))) st).
Proof.
  unfold pptxExtension, unsupportedExtension, excelExtension, CrossCheckView.processFile.
  destruct (String.eqb_spec (extensionOf f) "xlsx") as [Hx | Hx],
           (String.eqb_spec (extensionOf f) "xls") as [Hs | Hs],
           (String.eqb_spec (extensionOf f) "pptx") as [Hp | Hp];
    cbn [orb]; repeat split; intros;
    first [reflexivity | exfalso; intuition congruence].
Qed.

Lemma extension_kinds (f : File) :
  (excelExtension f /\ ~ pptxExtension f /\ ~ unsupportedExtension f)
  \/ (~ excelExtension f /\ pptxExtension f /\ ~ unsupportedExtension f)
  \/ (~ excelExtension f /\ ~ pptxExtension f /\ unsupportedExtension f).
Proof.
  unfold pptxExtension, unsupportedExtension.
  destruct (decide (excelExtension f)) as [He | He]; [tauto |].
  destruct (decide (extensionOf f = "pptx")); tauto.
Qed.

Lemma last_filter_snoc {A} (P : A -> Prop) `{forall x, Decision (P x)}
    (l : list A) (x : A) :
  last (filter P (l ++ [x])%list) = if decide (P x) then Some x else last (filter P l).
Proof.
  rewrite filter_app, filter_cons, filter_nil.
  destruct (decide (P x)); [apply last_snoc | rewrite app_nil_r; reflexivity].
Qed.

Lemma processFiles_last_wins (files : list File) (st : CrossCheckView.State) :
  let st' := CrossCheckView.processFiles files st in
  CrossCheckView.excelFile st'
    = match last (filter excelExtension files) with
      | Some f => Some f
      | None => CrossCheckView.excelFile st
      end
  /\ CrossCheckView.pptxFile st'
     = match last (filter pptxExtension files) with
       | Some f => Some f
       | None => CrossCheckView.pptxFile st
       end
  /\ CrossCheckView.error st'
     = match last (filter unsupportedExtension files) with
       | Some f => VStr (CrossCheckView.unsupportedMessage (extensionOf f))
       | None => CrossCheckView.error st
       end
  /\ CrossCheckView.isDragging st' = CrossCheckView.isDragging st
  /\ CrossCheckView.isLoading st' = CrossCheckView.isLoading st
  /\ CrossCheckView.success st' = CrossCheckView.success st.
Proof.
  cbn zeta. induction files as [| f files IH] using rev_ind.
  - repeat split.
  - rewrite processFiles_snoc, !last_filter_snoc.
    destruct IH as (IHe & IHp & IHerr & IHd & IHl & IHs).
    destruct (processFile_kinds (CrossCheckView.processFiles files st) f)
      as (Hexcel & Hpptx & Hother).
    destruct (extension_kinds f) as [(He & Hp & Hu) | [(He & Hp & Hu) | (He & Hp & Hu)]];
      rewrite ?(decide_True _ _ He), ?(decide_False _ _ He),
              ?(decide_True _ _ Hp), ?(decide_False _ _ Hp),
              ?(decide_True _ _ Hu), ?(decide_False _ _ Hu).
    + rewrite (Hexcel He). cbn. repeat split; assumption.
    + rewrite (Hpptx Hp). cbn. repeat split; assumption.
    + rewrite (Hother Hu). cbn. repeat split; assumption.
Qed.

(** X3. A drop on the cross-check view handles every file, and the last one of
    each kind wins: the Excel file is the last dropped file with an Excel
    extension (the one selected before when there is none), likewise the
    PowerPoint file, and the error is the message of the last file with
    another extension (no error when there is none). The drop ends the
    drag highlight and touches neither the loading nor the success flag. *)
Theorem handleDrop_last_of_each_kind (files : list File) (st : CrossCheckView.State) :
  let st' := CrossCheckView.handleDrop files st in
  CrossCheckView.excelFile st'
    = match last (filter excelExtension files) with
      | Some f => Some f
      | None => CrossCheckView.excelFile st
      end
  /\ CrossCheckView.pptxFile st'
     = match last (filter pptxExtension files) with
       | Some f => Some f
       | None => CrossCheckView.pptxFile st
       end
  /\ CrossCheckView.error st'
     = match last (filter unsupportedExtension files) with
       | Some f => VStr (CrossCheckView.unsupportedMessage (extensionOf f))
       | None => VNull
       end
  /\ CrossCheckView.isDragging st' = false
  /\ CrossCheckView.isLoading st' = CrossCheckView.isLoading st
  /\ CrossCheckView.success st' = CrossCheckView.success st.
Proof.
  cbn zeta. unfold CrossCheckView.handleDrop.
  destruct (processFiles_last_wins files
              (CrossCheckView.setError VNull (CrossCheckView.setIsDragging false st)))
    as (He & Hp & Herr & Hd & Hl & Hs).
  rewrite He, Hp, Herr, Hd, Hl, Hs. repeat split.
Qed.

(** X4. A drop never deselects: a file that was selected stays selected or is
    replaced, so an analyze button that was enabled stays enabled. *)
Theorem handleDrop_keeps_selection (files : list File) (st : CrossCheckView.State) :
  (is_Some (CrossCheckView.excelFile st) ->
     is_Some (CrossCheckView.excelFile (CrossCheckView.handleDrop files st)))
  /\ (is_Some (CrossCheckView.pptxFile st) ->
     is_Some (CrossCheckView.pptxFile (CrossCheckView.handleDrop files st)))
  /\ (CrossCheckView.analyzeDisabled st = false ->
     CrossCheckView.analyzeDisabled (CrossCheckView.handleDrop files st) = false).
Proof.
  unfold CrossCheckView.handleDrop.
  destruct (processFiles_last_wins files
              (CrossCheckView.setError VNull (CrossCheckView.setIsDragging false st)))
    as (He & Hp & _ & _ & Hl & _).
  unfold CrossCheckView.analyzeDisabled. rewrite He, Hp, Hl. cbn.
  destruct (last (filter excelExtension files)), (last (filter pptxExtension files)),
    (CrossCheckView.excelFile st), (CrossCheckView.pptxFile st);
    repeat split; intros H; try (eexists; reflexivity); try exact H;
    try discriminate H; try (destruct H as [? H]; discriminate H).
Qed.

Lemma handleDrop_keeps_selection_witness :
  let st := CrossCheckView.setPptxFile (Some (mkFile "deck.pptx" 9))
              (CrossCheckView.setExcelFile (Some (mkFile "a.xlsx" 7))
                 CrossCheckView.initial) in
  CrossCheckView.analyzeDisabled st = false
  /\ CrossCheckView.analyzeDisabled
       (CrossCheckView.handleDrop [mkFile "notes.txt" 1; mkFile "b.xls" 2] st) = false.
Proof.
  cbn zeta. split; [reflexivity |].
  apply (proj2 (proj2 (handleDrop_keeps_selection
    [mkFile "notes.txt" 1; mkFile "b.xls" 2]
    (CrossCheckView.setPptxFile (Some (mkFile "deck.pptx" 9))
       (CrossCheckView.setExcelFile (Some (mkFile "a.xlsx" 7))
          CrossCheckView.initial))))).
  reflexivity.
Defined.

(** X5. Removing either file blocks the analysis: the button is disabled and
    the guard of [handleAnalyze] refuses, whatever was selected; the other
    file stays, and the success notice and the error are cleared. *)
Theorem removeFile_blocks_analysis (fileType : string) (st : CrossCheckView.State) :
  let st' := CrossCheckView.removeFile fileType st in
  CrossCheckView.analyzeDisabled st' = true
  /\ snd (CrossCheckView.handleAnalyzeStart st') = None
  /\ CrossCheckView.success st' = false
  /\ CrossCheckView.error st' = VNull
  /\ (fileType = "excel" ->
      CrossCheckView.excelFile st' = None
      /\ CrossCheckView.pptxFile st' = CrossCheckView.pptxFile st)
  /\ (fileType <> "excel" ->
      CrossCheckView.pptxFile st' = None
      /\ CrossCheckView.excelFile st' = CrossCheckView.excelFile st).
Proof.
  cbn zeta.
  unfold CrossCheckView.removeFile, CrossCheckView.analyzeDisabled,
    CrossCheckView.handleAnalyzeStart.
  destruct (String.eqb_spec fileType "excel") as [Heq | Hne]; cbn;
    destruct (CrossCheckView.excelFile st), (CrossCheckView.pptxFile st); cbn;
    repeat split; intros; congruence.
Qed.

Lemma analyzeDisabled_guard_witness :
  CrossCheckView.isLoading CrossCheckView.initial = false
  /\ (CrossCheckView.analyzeDisabled CrossCheckView.initial = true
      <-> snd (CrossCheckView.handleAnalyzeStart CrossCheckView.initial) = None).
Proof.
  split; [reflexivity |].
  apply (analyzeDisabled_guard CrossCheckView.initial). reflexivity.
Defined.



(** X8. Files chosen with the two file inputs are posted as chosen: whatever
    their names, once one file was chosen with each input (in either order,
    from any state) the next click on the analyze action sends exactly
    those two, the first as [file_excel] and the second as [file_ppt]. *)
Theorem chosen_files_are_posted (excel pptx : File) (st : CrossCheckView.State) :
  let request :=
    CrossCheckView.mkRequest "/analyze" [("file_excel", excel); ("file_ppt", pptx)] in
  snd (CrossCheckView.handleAnalyzeStart
         (CrossCheckView.handleFileSelect (Some pptx) "pptx"
            (CrossCheckView.handleFileSelect (Some excel) "excel" st)))
  = Some request
  /\ snd (CrossCheckView.handleAnalyzeStart
            (CrossCheckView.handleFileSelect (Some excel) "excel"
               (CrossCheckView.handleFileSelect (Some pptx) "pptx" st)))
     = Some request
  /\ CrossCheckView.error
       (CrossCheckView.handleFileSelect (Some pptx) "pptx"
          (CrossCheckView.handleFileSelect (Some excel) "excel" st)) = VNull.
Proof. repeat split. Qed.

(** ** Batch view: what is selected and what is posted *)

Lemma validateAndSetFile_excel (chosen : option File) (st : PriorityBatchView.State) :
  (forall f, PriorityBatchView.file st = Some f -> PriorityBatchView.isExcel f = true) ->
  forall f, PriorityBatchView.file (PriorityBatchView.validateAndSetFile chosen st) = Some f ->
            PriorityBatchView.isExcel f = true.
Proof.
  intros Hst f. unfold PriorityBatchView.validateAndSetFile.
  destruct chosen as [selected |]; [| apply Hst].
  fold (PriorityBatchView.isExcel selected).
  destruct (PriorityBatchView.isExcel selected) eqn:Hsel; cbn; [| apply Hst].
  intros [= <-]. exact Hsel.
Qed.

Lemma batchInvariant_step (s s' : PriorityBatchView.Session) (e : PriorityBatchView.Event) :
  batchInvariant s -> PriorityBatchView.step s e = Some s' -> batchInvariant s'.
Proof.
  intros (Hfile & Hfly & Hload) Hstep. unfold batchInvariant.
  destruct e as [ | | files | files | | | reply]; cbn in Hstep.
  - injection Hstep as <-. cbn. auto.
  - injection Hstep as <-. cbn. auto.
  - injection Hstep as <-. cbn [PriorityBatchView.ui PriorityBatchView.inFlight].
    unfold PriorityBatchView.handleDrop. split; [| split].
    + apply validateAndSetFile_excel. exact Hfile.
    + exact Hfly.
    + destruct (head files) as [f |]; cbn; [| exact Hload].
      destruct (_ || _)%bool; cbn; exact Hload.
  - destruct (PriorityBatchView.file (PriorityBatchView.ui s)) eqn:Hsel; [discriminate Hstep |].
    injection Hstep as <-. cbn [PriorityBatchView.ui PriorityBatchView.inFlight].
    unfold PriorityBatchView.handleFileSelect. split; [| split].
    + apply validateAndSetFile_excel. intros f Hf. rewrite Hsel in Hf. discriminate Hf.
    + exact Hfly.
    + destruct (files ≫= head) as [f |]; cbn; [| exact Hload].
      destruct (_ || _)%bool; cbn; exact Hload.
  - destruct (PriorityBatchView.file (PriorityBatchView.ui s)) eqn:Hsel; [| discriminate Hstep].
    injection Hstep as <-. cbn. split; [intros g Hg; discriminate Hg | auto].
  - unfold PriorityBatchView.processDisabled, PriorityBatchView.handleProcessStart in Hstep.
    destruct (PriorityBatchView.file (PriorityBatchView.ui s)) as [f |] eqn:Hsel;
      [| discriminate Hstep].
    destruct (PriorityBatchView.isLoading (PriorityBatchView.ui s)); [discriminate Hstep |].
    injection Hstep as <-. cbn. rewrite Hsel. split; [exact Hfile |]. split.
    + intros g [= <-]. apply Hfile. reflexivity.
    + split; [eauto | reflexivity].
  - destruct (PriorityBatchView.inFlight s) as [f |]; [| discriminate Hstep].
    injection Hstep as <-. cbn [PriorityBatchView.ui PriorityBatchView.inFlight].
    split; [| split].
    + destruct reply; cbn; exact Hfile.
    + intros g Hg. discriminate Hg.
    + destruct reply; cbn; split; intros H; try discriminate H;
        destruct H as [? H]; discriminate H.
Qed.

Lemma batchInvariant_run (events : list PriorityBatchView.Event)
    (s s' : PriorityBatchView.Session) :
  batchInvariant s -> PriorityBatchView.run s events = Some s' -> batchInvariant s'.
Proof.
  revert s. induction events as [| e rest IH]; intros s Hinv Hrun; cbn in Hrun.
  - injection Hrun as <-. exact Hinv.
  - destruct (PriorityBatchView.step s e) as [s1 |] eqn:Hstep; [| discriminate Hrun].
    apply (IH s1); [eapply batchInvariant_step; eassumption | exact Hrun].
Qed.

(** X9. In every session of the batch view the selected file has an Excel
    extension, and so has every file posted to the batch service: all the
    ways to select a file go through the extension check. *)
Theorem batch_posts_only_excel_files
    (events : list PriorityBatchView.Event) (s : PriorityBatchView.Session) :
  PriorityBatchView.run PriorityBatchView.start events = Some s ->
  (forall f, PriorityBatchView.file (PriorityBatchView.ui s) = Some f ->
             extensionOf f = "xlsx" \/ extensionOf f = "xls")
  /\ (forall f, PriorityBatchView.inFlight s = Some f ->
                extensionOf f = "xlsx" \/ extensionOf f = "xls").
Proof.
  intros Hrun.
  assert (Hstart : batchInvariant PriorityBatchView.start).
  { split; [intros f Hf; discriminate Hf |].
    split; [intros f Hf; discriminate Hf |].
    cbn. split; intros H; [discriminate H | destruct H as [? H]; discriminate H]. }
  destruct (batchInvariant_run events _ s Hstart Hrun) as (Hfile & Hfly & _).
  assert (Hext : forall f, PriorityBatchView.isExcel f = true ->
                           extensionOf f = "xlsx" \/ extensionOf f = "xls").
  { intros f Hf. unfold PriorityBatchView.isExcel in Hf.
    apply orb_true_iff in Hf as [Hf | Hf]; apply String.eqb_eq in Hf; auto. }
  split; intros f Hf; apply Hext; [apply Hfile | apply Hfly]; exact Hf.
Qed.

Lemma batch_posts_only_excel_files_witness :
  exists s,
    PriorityBatchView.run PriorityBatchView.start
      [PriorityBatchView.Drop [mkFile "cartera.XLSX" 30; mkFile "deck.pptx" 4];
       PriorityBatchView.Drop [mkFile "deck.pptx" 4];
       PriorityBatchView.ClickProcess] = Some s
    /\ PriorityBatchView.inFlight s = Some (mkFile "cartera.XLSX" 30)
    /\ (extensionOf (mkFile "cartera.XLSX" 30) = "xlsx"
        \/ extensionOf (mkFile "cartera.XLSX" 30) = "xls").
Proof.
  eexists. split; [reflexivity |]. split; [reflexivity |].
  eapply (proj2 (batch_posts_only_excel_files
    [PriorityBatchView.Drop [mkFile "cartera.XLSX" 30; mkFile "deck.pptx" 4];
     PriorityBatchView.Drop [mkFile "deck.pptx" 4];
     PriorityBatchView.ClickProcess] _ eq_refl)).
  reflexivity.
Defined.

(** X10. In every session of the batch view the loading flag is up exactly
    while a request is awaited; as the button is disabled while loading, a
    second request is never sent before the first has settled. *)
Theorem batch_one_request_at_a_time
    (events : list PriorityBatchView.Event) (s : PriorityBatchView.Session) :
  PriorityBatchView.run PriorityBatchView.start events = Some s ->
  (PriorityBatchView.isLoading (PriorityBatchView.ui s) = true
   <-> is_Some (PriorityBatchView.inFlight s))
  /\ (is_Some (PriorityBatchView.inFlight s) ->
      PriorityBatchView.step s PriorityBatchView.ClickProcess = None).
Proof.
  intros Hrun.
  assert (Hstart : batchInvariant PriorityBatchView.start).
  { split; [intros f Hf; discriminate Hf |].
    split; [intros f Hf; discriminate Hf |].
    cbn. split; intros H; [discriminate H | destruct H as [? H]; discriminate H]. }
  destruct (batchInvariant_run events _ s Hstart Hrun) as (_ & _ & Hload).
  split; [exact Hload |].
  intros Hfly. apply Hload in Hfly. cbn.
  unfold PriorityBatchView.processDisabled. rewrite Hfly.
  destruct (PriorityBatchView.file (PriorityBatchView.ui s)); reflexivity.
Qed.

Lemma batch_one_request_at_a_time_witness :
  exists s,
    PriorityBatchView.run PriorityBatchView.start
      [PriorityBatchView.Select (Some [mkFile "cartera.xls" 30]);
       PriorityBatchView.ClickProcess] = Some s
    /\ PriorityBatchView.isLoading (PriorityBatchView.ui s) = true
    /\ PriorityBatchView.step s PriorityBatchView.ClickProcess = None.
Proof.
  eexists. split; [reflexivity |]. split; [reflexivity |].
  eapply (proj2 (batch_one_request_at_a_time
    [PriorityBatchView.Select (Some [mkFile "cartera.xls" 30]);
     PriorityBatchView.ClickProcess] _ eq_refl)).
  eexists. reflexivity.
Defined.

(** X11. A refused file does not unselect: after an Excel file was taken and
    another file was refused, the error is shown, the Excel file is still
    selected, and it is the file the next click on the button posts. *)
Theorem refused_file_keeps_previous (taken refused : File) (st : PriorityBatchView.State) :
  PriorityBatchView.isExcel taken = true ->
  PriorityBatchView.isExcel refused = false ->
  let st' := PriorityBatchView.validateAndSetFile (Some refused)
               (PriorityBatchView.validateAndSetFile (Some taken) st) in
  PriorityBatchView.file st' = Some taken
  /\ displayedError (PriorityBatchView.error st')
     = Some (VStr PriorityBatchView.unsupportedMessage)
  /\ snd (PriorityBatchView.handleProcessStart st') = Some taken
  /\ displayedError
       (PriorityBatchView.error (fst (PriorityBatchView.handleProcessStart st'))) = None.
Proof.
  intros Htaken Hrefused. cbn zeta.
  unfold PriorityBatchView.validateAndSetFile, PriorityBatchView.handleProcessStart.
  fold (PriorityBatchView.isExcel taken). fold (PriorityBatchView.isExcel refused).
  rewrite Htaken, Hrefused. cbn. repeat split.
Qed.

Lemma refused_file_keeps_previous_witness :
  let taken := mkFile "cartera.xlsx" 30 in
  let refused := mkFile "cartera.csv" 12 in
  PriorityBatchView.isExcel taken = true
  /\ PriorityBatchView.isExcel refused = false
  /\ snd (PriorityBatchView.handleProcessStart
            (PriorityBatchView.validateAndSetFile (Some refused)
               (PriorityBatchView.validateAndSetFile (Some taken)
                  PriorityBatchView.initial))) = Some taken.
Proof.
  cbn zeta. split; [reflexivity |]. split; [reflexivity |].
  apply (proj1 (proj2 (proj2 (refused_file_keeps_previous
    (mkFile "cartera.xlsx" 30) (mkFile "cartera.csv" 12)
    PriorityBatchView.initial eq_refl eq_refl)))).
Defined.

(** ** Scorer: the body of the request *)

Lemma wellFormedBody_initial : wellFormedBody ProjectScorer.initialFormData.
Proof.
  intros key. unfold ProjectScorer.sliderKeys, ProjectScorer.initialFormData. split.
  - intros Hin. repeat (apply elem_of_cons in Hin as [-> | Hin]);
      [exists 50%Z; split; [reflexivity | lia] .. |].
    apply elem_of_nil in Hin. destruct Hin.
  - intros Hout. repeat (apply not_elem_of_cons in Hout as [? Hout]).
    rewrite !lookup_insert_ne by congruence. apply lookup_empty.
Qed.

Lemma wellFormedBody_insert (body : gmap string Z) (field : string) (v : Z) :
  field ∈ ProjectScorer.sliderKeys -> (0 <= v <= 100)%Z ->
  wellFormedBody body -> wellFormedBody (<[field := v]> body).
Proof.
  intros Hfield Hv Hbody key.
  destruct (decide (field = key)) as [<- | Hne].
  - rewrite lookup_insert_eq. split; [eauto | contradiction].
  - rewrite lookup_insert_ne by exact Hne. apply Hbody.
Qed.

Lemma scorerInvariant_step (s s' : ProjectScorer.Session) (e : ProjectScorer.Event) :
  scorerInvariant s -> ProjectScorer.step s e = Some s' -> scorerInvariant s'.
Proof.
  intros (Hform & Hfly & Hload) Hstep. unfold scorerInvariant.
  destruct e as [field v | | reply]; cbn in Hstep.
  - destruct (bool_decide (field ∈ ProjectScorer.sliderKeys)) eqn:Hfield;
      [| discriminate Hstep].
    destruct (Z.leb_spec 0 v); [| discriminate Hstep].
    destruct (Z.leb_spec v 100); [| discriminate Hstep].
    cbn in Hstep. injection Hstep as <-. cbn.
    apply bool_decide_eq_true in Hfield.
    split; [apply wellFormedBody_insert; [assumption | lia | assumption] | auto].
  - destruct (ProjectScorer.isLoading (ProjectScorer.ui s)); [discriminate Hstep |].
    injection Hstep as <-. cbn. split; [exact Hform |]. split.
    + intros body [= <-]. exact Hform.
    + split; [eauto | reflexivity].
  - destruct (ProjectScorer.inFlight s) as [body |]; [| discriminate Hstep].
    injection Hstep as <-. cbn [ProjectScorer.ui ProjectScorer.inFlight].
    split; [destruct reply; exact Hform |]. split.
    + intros b Hb. discriminate Hb.
    + destruct reply; cbn; split; intros H; try discriminate H;
        destruct H as [? H]; discriminate H.
Qed.

Lemma scorerInvariant_run (events : list ProjectScorer.Event)
    (s s' : ProjectScorer.Session) :
  scorerInvariant s -> ProjectScorer.run s events = Some s' -> scorerInvariant s'.
Proof.
  revert s. induction events as [| e rest IH]; intros s Hinv Hrun; cbn in Hrun.
  - injection Hrun as <-. exact Hinv.
  - destruct (ProjectScorer.step s e) as [s1 |] eqn:Hstep; [| discriminate Hrun].
    apply (IH s1); [eapply scorerInvariant_step; eassumption | exact Hrun].
Qed.

Lemma scorerInvariant_start : scorerInvariant ProjectScorer.start.
Proof.
  split; [apply wellFormedBody_initial |].
  split; [intros body Hb; discriminate Hb |].
  cbn. split; intros H; [discriminate H | destruct H as [? H]; discriminate H].
Qed.

(** X12. In every session of the scorer the form, and every body posted to the
    scoring service, holds exactly the five factors of the sliders, each
    with a value from 0 to 100: a slider change writes one of the five keys
    and never adds or drops one. *)
Theorem scorer_posts_five_factors_in_range
    (events : list ProjectScorer.Event) (s : ProjectScorer.Session) :
  ProjectScorer.run ProjectScorer.start events = Some s ->
  (forall key,
      (key ∈ ProjectScorer.sliderKeys ->
         exists v, ProjectScorer.formData (ProjectScorer.ui s) !! key = Some v
                   /\ (0 <= v <= 100)%Z)
      /\ (key ∉ ProjectScorer.sliderKeys ->
          ProjectScorer.formData (ProjectScorer.ui s) !! key = None))
  /\ (forall body, ProjectScorer.inFlight s = Some body ->
        forall key,
          (key ∈ ProjectScorer.sliderKeys ->
             exists v, body !! key = Some v /\ (0 <= v <= 100)%Z)
          /\ (key ∉ ProjectScorer.sliderKeys -> body !! key = None)).
Proof.
  intros Hrun.
  destruct (scorerInvariant_run events _ s scorerInvariant_start Hrun) as (Hform & Hfly & _).
  split; [exact Hform | exact Hfly].
Qed.

Lemma scorer_posts_five_factors_in_range_witness :
  exists s,
    ProjectScorer.run ProjectScorer.start
      [ProjectScorer.SliderChange "risk" 0; ProjectScorer.SliderChange "roi" 100;
       ProjectScorer.ClickCalculate] = Some s
    /\ (exists v, ProjectScorer.formData (ProjectScorer.ui s) !! "risk" = Some v
                  /\ (0 <= v <= 100)%Z)
    /\ ProjectScorer.formData (ProjectScorer.ui s) !! "budget" = None.
Proof.
  assert (Hin : "risk" ∈ ProjectScorer.sliderKeys)
    by (apply (bool_decide_unpack _); exact I).
  assert (Hout : "budget" ∉ ProjectScorer.sliderKeys)
    by (apply (bool_decide_unpack _); exact I).
  eexists. split; [reflexivity |].
  pose proof (proj1 (scorer_posts_five_factors_in_range
    [ProjectScorer.SliderChange "risk" 0; ProjectScorer.SliderChange "roi" 100;
     ProjectScorer.ClickCalculate] _ eq_refl)) as Hform.
  split.
  - apply (proj1 (Hform "risk")). exact Hin.
  - apply (proj2 (Hform "budget")). exact Hout.
Defined.

(** X13. In every session of the scorer the loading flag is up exactly while a
    request is awaited, so a click can never send a second request, or
    replace the one awaited, before it has settled. *)
Theorem scorer_one_request_at_a_time
    (events : list ProjectScorer.Event) (s : ProjectScorer.Session) :
  ProjectScorer.run ProjectScorer.start events = Some s ->
  (ProjectScorer.isLoading (ProjectScorer.ui s) = true
   <-> is_Some (ProjectScorer.inFlight s))
  /\ (is_Some (ProjectScorer.inFlight s) ->
      ProjectScorer.step s ProjectScorer.ClickCalculate = None).
Proof.
  intros Hrun.
  destruct (scorerInvariant_run events _ s scorerInvariant_start Hrun) as (_ & _ & Hload).
  split; [exact Hload |].
  intros Hfly. apply Hload in Hfly. cbn. rewrite Hfly. reflexivity.
Qed.

Lemma scorer_one_request_at_a_time_witness :
  exists s,
    ProjectScorer.run ProjectScorer.start
      [ProjectScorer.ClickCalculate; ProjectScorer.SliderChange "urgency" 75] = Some s
    /\ ProjectScorer.isLoading (ProjectScorer.ui s) = true
    /\ ProjectScorer.step s ProjectScorer.ClickCalculate = None.
Proof.
  eexists. split; [reflexivity |]. split; [reflexivity |].
  eapply (proj2 (scorer_one_request_at_a_time
    [ProjectScorer.ClickCalculate; ProjectScorer.SliderChange "urgency" 75] _ eq_refl)).
  eexists. reflexivity.
Defined.

(** X14. Slider changes compose as writes to independent cells: changes of two
    different sliders commute, a second change of the same slider
    overwrites the first, and a change leaves the other four values, the
    loading flag and the error as they were. *)
Theorem slider_changes_compose (f g : string) (v w : Z) (st : ProjectScorer.State) :
  (f <> g ->
     ProjectScorer.handleSliderChange f v (ProjectScorer.handleSliderChange g w st)
     = ProjectScorer.handleSliderChange g w (ProjectScorer.handleSliderChange f v st))
  /\ ProjectScorer.handleSliderChange f v (ProjectScorer.handleSliderChange f w st)
     = ProjectScorer.handleSliderChange f v st
  /\ (f <> g ->
      ProjectScorer.formData (ProjectScorer.handleSliderChange f v st) !! g
      = ProjectScorer.formData st !! g)
  /\ ProjectScorer.isLoading (ProjectScorer.handleSliderChange f v st)
     = ProjectScorer.isLoading st
  /\ ProjectScorer.error (ProjectScorer.handleSliderChange f v st)
     = ProjectScorer.error st.
Proof.
  unfold ProjectScorer.handleSliderChange, ProjectScorer.setResult. cbn.
  repeat split.
  - intros Hne. f_equal. apply insert_insert_ne. congruence.
  - f_equal. apply insert_insert_eq.
  - intros Hne. apply lookup_insert_ne. exact Hne.
Qed.

Lemma slider_changes_compose_witness :
  "roi" <> "risk"
  /\ ProjectScorer.handleSliderChange "roi" 80
       (ProjectScorer.handleSliderChange "risk" 10 ProjectScorer.initial)
     = ProjectScorer.handleSliderChange "risk" 10
         (ProjectScorer.handleSliderChange "roi" 80 ProjectScorer.initial).
Proof.
  split; [discriminate |].
  apply (proj1 (slider_changes_compose "roi" "risk" 80 10 ProjectScorer.initial)).
  discriminate.
Defined.

(** ** Colour scales *)

(** X16. The priority colour never cools as the score grows: of two scores the
    higher one is drawn at least as hot (green, yellow, orange, red). *)
Theorem priority_colour_monotone (s s' : Z) (c c' : string) :
  (s <= s')%Z ->
  PriorityBatchView.getScoreColor s = Return c ->
  PriorityBatchView.getScoreColor s' = Return c' ->
  (heat c <= heat c')%Z.
Proof.
  intros Hle Hc Hc'. revert Hc Hc'.
  unfold PriorityBatchView.getScoreColor. rewrite ?Z.geb_leb.
  destruct (Z.leb_spec 80 s), (Z.leb_spec 60 s), (Z.leb_spec 40 s),
           (Z.leb_spec 80 s'), (Z.leb_spec 60 s'), (Z.leb_spec 40 s');
    intros [= <-] [= <-]; cbn; lia.
Qed.

Lemma priority_colour_monotone_witness :
  (59 <= 60)%Z
  /\ PriorityBatchView.getScoreColor 59 = Return "text-yellow-400"
  /\ PriorityBatchView.getScoreColor 60 = Return "text-orange-400"
  /\ (heat "text-yellow-400" <= heat "text-orange-400")%Z.
Proof.
  split; [lia |]. split; [reflexivity |]. split; [reflexivity |].
  apply (priority_colour_monotone 59 60); [lia | reflexivity | reflexivity].
Defined.

(** X17. The match score of the dashboard uses the thresholds of the priority
    score with the colours reversed: a score is green as a match exactly
    when it is red as a priority, yellow exactly when orange, orange
    exactly when yellow, and red exactly when green. *)
Theorem match_scale_mirrors_priority_scale (s : Z) :
  (ResultsDashboard.getScoreColor s = Return "text-green-400"
   <-> PriorityBatchView.getScoreColor s = Return "text-red-400")
  /\ (ResultsDashboard.getScoreColor s = Return "text-yellow-400"
      <-> PriorityBatchView.getScoreColor s = Return "text-orange-400")
  /\ (ResultsDashboard.getScoreColor s = Return "text-orange-400"
      <-> PriorityBatchView.getScoreColor s = Return "text-yellow-400")
  /\ (ResultsDashboard.getScoreColor s = Return "text-red-400"
      <-> PriorityBatchView.getScoreColor s = Return "text-green-400").
Proof.
  unfold ResultsDashboard.getScoreColor, PriorityBatchView.getScoreColor.
  destruct (s >=? 80)%Z, (s >=? 60)%Z, (s >=? 40)%Z;
    repeat split; intros H; try reflexivity; discriminate H.
Qed.

(** X18. The card of the match score is tinted in the hue its number is
    written in: [getScoreBg] and [getScoreColor] always pick the same one
    of green, yellow, orange and red. *)
Theorem match_background_follows_colour (s : Z) :
  exists hue : string,
    In hue ["green"; "yellow"; "orange"; "red"]
    /\ ResultsDashboard.getScoreColor s = Return ("text-" ++ hue ++ "-400")
    /\ ResultsDashboard.getScoreBg s
       = Return ("from-" ++ hue ++ "-600/20 to-" ++ hue ++ "-600/5").
Proof.
  unfold ResultsDashboard.getScoreColor, ResultsDashboard.getScoreBg.
  destruct (s >=? 80)%Z; [exists "green"; cbn; auto |].
  destruct (s >=? 60)%Z; [exists "yellow"; cbn; auto |].
  destruct (s >=? 40)%Z; [exists "orange"; cbn; auto |].
  exists "red"; cbn; auto 6.
Qed.

(** ** Discrepancy cards *)

(** X19. The grid of paired values is never drawn empty: it is drawn exactly
    when the spreadsheet value or the slide value is truthy, and then at
    least one of its two boxes is drawn; each box is drawn exactly when its
    own value is truthy. *)
Theorem value_grid_never_empty (item : Discrepancy) :
  (isDrawn (valuesOf item) = true
   <-> truthy (excel_value item) = true \/ truthy (pptx_value item) = true)
  /\ (forall grid, valuesOf item = Drawn grid ->
        (isDrawn (excelBox grid) || isDrawn (pptxBox grid))%bool = true
        /\ isDrawn (excelBox grid) = truthy (excel_value item)
        /\ isDrawn (pptxBox grid) = truthy (pptx_value item)
        /\ (forall v, excelBox grid = Drawn v -> v = excel_value item)
        /\ (forall v, pptxBox grid = Drawn v -> v = pptx_value item)).
Proof.
  unfold valuesOf, jsxAnd, Js.or.
  destruct (truthy (excel_value item)) eqn:He.
  - rewrite He. split; [cbn; tauto |].
    intros grid [= <-]. cbn.
    destruct (truthy (pptx_value item)); cbn; repeat split; congruence.
  - destruct (truthy (pptx_value item)) eqn:Hp.
    + split; [cbn; tauto |].
      intros grid [= <-]. cbn. repeat split; congruence.
    + split; [cbn; intuition discriminate |].
      intros grid Hgrid. discriminate Hgrid.
Qed.

Lemma mapThrowing_labels (items : list Discrepancy) :
  Forall (fun item => isLabel (severity item) = true) items ->
  exists cards,
    mapThrowing ResultsDashboard.renderCard items = Return cards
    /\ mapThrowing HistoryDetail.renderCard items = Return cards
    /\ map cardStyles cards
       = map (fun item => severityStyles
                            (severityOfNormalized (normalizedLabel (severity item)))) items
    /\ map cardSeverity cards = map severity items
    /\ map cardDescription cards = map description items.
Proof.
  induction 1 as [| item items Hitem Hitems IH].
  - exists []. repeat split.
  - destruct IH as (cards & Hrd & Hhd & Hstyles & Hsev & Hdesc).
    assert (Hrun :
      ResultsDashboard.getSeverityStyles (severity item)
      = Return (severityStyles (severityOfNormalized (normalizedLabel (severity item))))
      /\ HistoryDetail.getSeverityStyles (severity item)
         = Return (severityStyles (severityOfNormalized (normalizedLabel (severity item))))).
    { destruct (severity item) as [ | | s | n]; cbn [normalizedLabel].
      - split; reflexivity.
      - split; reflexivity.
      - apply getSeverityStyles_string.
      - discriminate Hitem. }
    destruct Hrun as [Hr Hh].
    eexists. cbn [mapThrowing].
    unfold ResultsDashboard.renderCard, HistoryDetail.renderCard.
    rewrite Hr, Hh. cbn [Js.bind].
    fold ResultsDashboard.renderCard. fold HistoryDetail.renderCard.
    rewrite Hrd, Hhd. cbn [Js.bind].
    split; [reflexivity |]. split; [reflexivity |].
    cbn. rewrite Hstyles, Hsev, Hdesc. repeat split.
Qed.

(** X20. When every discrepancy of the response has a string or a missing
    severity, the dashboard draws one card per discrepancy, in the order of
    the response, each in the style of its severity class and printing the
    severity as received; the number on the badge is the number of cards. *)
Theorem dashboard_draws_one_card_per_discrepancy (items : list Discrepancy) :
  Forall (fun item => isLabel (severity item) = true) items ->
  exists cards,
    ResultsDashboard.renderDiscrepancies (Some items)
    = Return (Z.of_nat (length cards), cards)
    /\ length cards = length items
    /\ map cardStyles cards
       = map (fun item => severityStyles
                            (severityOfNormalized (normalizedLabel (severity item)))) items
    /\ map cardSeverity cards = map severity items
    /\ map cardDescription cards = map description items.
Proof.
  intros Hlabels.
  destruct (mapThrowing_labels items Hlabels) as (cards & Hrd & _ & Hstyles & Hsev & Hdesc).
  assert (Hlen : length cards = length items).
  { rewrite <- (length_map cardSeverity cards), Hsev. apply length_map. }
  exists cards. cbn [ResultsDashboard.renderDiscrepancies].
  rewrite Hrd. cbn [Js.bind]. rewrite Hlen. repeat split; assumption.
Qed.

Lemma dashboard_draws_one_card_per_discrepancy_witness :
  let items :=
    [mkDiscrepancy (VStr "ALTA") (VStr "monto") (VStr "CAPEX distinto")
                   (VStr "1200") (VStr "1500");
     mkDiscrepancy VNull (VStr "fecha") (VStr "Hito sin fecha") VUndefined VUndefined] in
  Forall (fun item => isLabel (severity item) = true) items
  /\ exists cards,
       ResultsDashboard.renderDiscrepancies (Some items)
       = Return (Z.of_nat (length cards), cards)
       /\ map cardStyles cards = [severityStyles SevHigh; severityStyles SevLow].
Proof.
  cbn zeta.
  assert (Hlabels : Forall (fun item => isLabel (severity item) = true)
    [mkDiscrepancy (VStr "ALTA") (VStr "monto") (VStr "CAPEX distinto")
                   (VStr "1200") (VStr "1500");
     mkDiscrepancy VNull (VStr "fecha") (VStr "Hito sin fecha") VUndefined VUndefined]).
  { repeat constructor. }
  split; [exact Hlabels |].
  destruct (dashboard_draws_one_card_per_discrepancy _ Hlabels)
    as (cards & Hrun & _ & Hstyles & _).
  exists cards. split; [exact Hrun | exact Hstyles].
Defined.

Lemma mapThrowing_number (items : list Discrepancy) :
  Exists (fun item => isLabel (severity item) = false) items ->
  mapThrowing ResultsDashboard.renderCard items = Throw "TypeError"
  /\ mapThrowing HistoryDetail.renderCard items = Throw "TypeError".
Proof.
  induction items as [| item items IH]; intros Hex; [inversion Hex |].
  cbn [mapThrowing]. unfold ResultsDashboard.renderCard, HistoryDetail.renderCard.
  destruct (severity item) as [ | | s | n] eqn:Hsev.
  - apply Exists_cons in Hex as [Hhere | Hlater]; [rewrite Hsev in Hhere; discriminate Hhere |].
    fold ResultsDashboard.renderCard. fold HistoryDetail.renderCard.
    destruct (IH Hlater) as [Hr Hh]. cbn. rewrite Hr, Hh. split; reflexivity.
  - apply Exists_cons in Hex as [Hhere | Hlater]; [rewrite Hsev in Hhere; discriminate Hhere |].
    fold ResultsDashboard.renderCard. fold HistoryDetail.renderCard.
    destruct (IH Hlater) as [Hr Hh]. cbn. rewrite Hr, Hh. split; reflexivity.
  - apply Exists_cons in Hex as [Hhere | Hlater]; [rewrite Hsev in Hhere; discriminate Hhere |].
    fold ResultsDashboard.renderCard. fold HistoryDetail.renderCard.
    destruct (IH Hlater) as [Hr Hh].
    destruct (getSeverityStyles_string s) as [Hrs Hhs].
    rewrite Hrs, Hhs. cbn [Js.bind]. rewrite Hr, Hh. split; reflexivity.
  - split; reflexivity.
Qed.

(** X21. One discrepancy whose severity is a number makes the whole list fail
    to draw, in the dashboard and in the history detail alike: the call of
    [toLowerCase] throws a TypeError and no card is produced, not even for
    the well-formed entries. *)
Theorem numeric_severity_breaks_the_list (items : list Discrepancy) :
  Exists (fun item => isLabel (severity item) = false) items ->
  ResultsDashboard.renderDiscrepancies (Some items) = Throw "TypeError"
  /\ HistoryDetail.renderDiscrepancies (Some items) = Throw "TypeError".
Proof.
  intros Hex. destruct (mapThrowing_number items Hex) as [Hr Hh].
  cbn [ResultsDashboard.renderDiscrepancies HistoryDetail.renderDiscrepancies].
  rewrite Hr. destruct items as [| item rest]; [inversion Hex |].
  rewrite Hh. split; reflexivity.
Qed.

Lemma numeric_severity_breaks_the_list_witness :
  let items :=
    [mkDiscrepancy (VStr "high") (VStr "monto") (VStr "CAPEX distinto")
                   (VStr "1200") (VStr "1500");
     mkDiscrepancy (VNum 2) (VStr "fecha") (VStr "Hito sin fecha") VUndefined VUndefined] in
  Exists (fun item => isLabel (severity item) = false) items
  /\ ResultsDashboard.renderDiscrepancies (Some items) = Throw "TypeError".
Proof.
  cbn zeta.
  assert (Hex : Exists (fun item => isLabel (severity item) = false)
    [mkDiscrepancy (VStr "high") (VStr "monto") (VStr "CAPEX distinto")
                   (VStr "1200") (VStr "1500");
     mkDiscrepancy (VNum 2) (VStr "fecha") (VStr "Hito sin fecha") VUndefined VUndefined]).
  { apply Exists_cons_tl. apply Exists_cons_hd. reflexivity. }
  split; [exact Hex |].
  apply (proj1 (numeric_severity_breaks_the_list _ Hex)).
Defined.

(** X22. The history detail draws a stored analysis as the dashboard drew it:
    for every response that has a discrepancy list the two views produce
    the same badge and the same cards, or fail alike. They differ only on a
    response without the list, where the detail shows 0 and the dashboard
    throws. *)
Theorem detail_draws_as_dashboard (items : list Discrepancy) :
  HistoryDetail.renderDiscrepancies (Some items)
  = ResultsDashboard.renderDiscrepancies (Some items)
  /\ HistoryDetail.renderDiscrepancies None = Return (0%Z, [])
  /\ ResultsDashboard.renderDiscrepancies None = Throw "TypeError".
Proof.
  split; [| split; reflexivity].
  destruct items as [| item rest]; [reflexivity |].
  cbn [HistoryDetail.renderDiscrepancies ResultsDashboard.renderDiscrepancies].
  assert (Hsame : forall l, mapThrowing HistoryDetail.renderCard l
                            = mapThrowing ResultsDashboard.renderCard l).
  { induction l as [| x l IH]; [reflexivity |]. cbn [mapThrowing]. rewrite IH. reflexivity. }
  rewrite Hsame. reflexivity.
Qed.

(** ** History list *)

(** X23. Loading the history is all or nothing: if either of the two requests
    fails, neither list is replaced, even when the other request brought
    its records, and the fixed message is shown instead of the "no history"
    notice; if both succeed, both lists are replaced and no error is
    shown. Either way the loading flag ends down. *)
Theorem history_load_all_or_nothing
    (crosscheckRes priorityRes : Reply (list History.HistoryRecord))
    (activeTab : string) (st : History.State) :
  let st' := History.fetchHistory crosscheckRes priorityRes st in
  History.isLoading st' = false
  /\ ((exists err, crosscheckRes = Rejected err) \/ (exists err, priorityRes = Rejected err) ->
      History.crosscheckRecords st' = History.crosscheckRecords st
      /\ History.priorityRecords st' = History.priorityRecords st
      /\ displayedError (History.error st') = Some (VStr History.historyMessage)
      /\ History.showsEmptyNotice activeTab st' = false)
  /\ (forall crosscheck priority,
        crosscheckRes = Resolved crosscheck -> priorityRes = Resolved priority ->
        History.crosscheckRecords st' = crosscheck
        /\ History.priorityRecords st' = priority
        /\ displayedError (History.error st') = None).
Proof.
  cbn zeta. unfold History.fetchHistory, History.showsEmptyNotice.
  destruct crosscheckRes as [c | errc], priorityRes as [p | errp]; cbn;
    (split; [reflexivity |]); split.
  - intros [[err H] | [err H]]; discriminate H.
  - intros c' p' [= <-] [= <-]. repeat split.
  - intros _. rewrite andb_false_r. repeat split.
  - intros c' p' _ H. discriminate H.
  - intros _. rewrite andb_false_r. repeat split.
  - intros c' p' H. discriminate H.
  - intros _. rewrite andb_false_r. repeat split.
  - intros c' p' H. discriminate H.
Qed.

Lemma history_load_all_or_nothing_witness :
  let records := [History.mkRecord 7 "2025-03-01T10:00:00" "completed"] in
  let down := mkError None (VStr "Network Error") in
  ((exists err, Resolved (D := list History.HistoryRecord) records = Rejected err)
   \/ (exists err, Rejected (D := list History.HistoryRecord) down = Rejected err))
  /\ History.crosscheckRecords
       (History.fetchHistory (Resolved records) (Rejected down) History.initial) = []
  /\ displayedError
       (History.error
          (History.fetchHistory (Resolved records) (Rejected down) History.initial))
     = Some (VStr History.historyMessage).
Proof.
  cbn zeta.
  assert (Hfail :
    (exists err, Resolved (D := list History.HistoryRecord)
                   [History.mkRecord 7 "2025-03-01T10:00:00" "completed"] = Rejected err)
    \/ (exists err, Rejected (D := list History.HistoryRecord)
                      (mkError None (VStr "Network Error")) = Rejected err)).
  { right. eexists. reflexivity. }
  split; [exact Hfail |].
  destruct (proj1 (proj2 (history_load_all_or_nothing
    (Resolved [History.mkRecord 7 "2025-03-01T10:00:00" "completed"])
    (Rejected (mkError None (VStr "Network Error"))) "crosscheck" History.initial)) Hfail)
    as (Hc & _ & Herr & _).
  split; [exact Hc | exact Herr].
Defined.

(** ** Application shell *)

Lemma shellInvariant_step (st st' : App.State) (e : App.Event) :
  shellInvariant st -> App.step st e = Some st' -> shellInvariant st'.
Proof.
  intros [Htab Htheme] Hstep. unfold shellInvariant.
  destruct e as [tabId | | | results]; unfold App.step in Hstep.
  - destruct (bool_decide (tabId ∈ map fst Navbar.navItems)) eqn:Hid; [| discriminate Hstep].
    injection Hstep as <-. cbn [App.handleNavClick App.activeTab App.theme].
    split; [apply bool_decide_eq_true in Hid; exact Hid | exact Htheme].
  - injection Hstep as <-. cbn [App.toggleTheme App.activeTab App.theme].
    split; [exact Htab |].
    destruct (String.eqb (App.theme st) "dark"); auto.
  - injection Hstep as <-. split; assumption.
  - injection Hstep as <-. split; assumption.
Qed.

Lemma shellInvariant_run (events : list App.Event) (st st' : App.State) :
  shellInvariant st -> App.run st events = Some st' -> shellInvariant st'.
Proof.
  revert st. induction events as [| e rest IH]; intros st Hinv Hrun; cbn in Hrun.
  - injection Hrun as <-. exact Hinv.
  - destruct (App.step st e) as [st1 |] eqn:Hstep; [| discriminate Hrun].
    apply (IH st1); [eapply shellInvariant_step; eassumption | exact Hrun].
Qed.

Lemma shellInvariant_initial : shellInvariant App.initial.
Proof.
  split; [| left; reflexivity].
  apply (bool_decide_unpack _). exact I.
Qed.

(** X24. The shell never shows an empty page: in every session the active tab
    is one of the navigation items, each of which [renderContent] knows, so
    the [default: return null] branch is never taken; and the theme is
    always one of "dark" and "light". *)
Theorem shell_always_renders_a_page (events : list App.Event) (st : App.State) :
  App.run App.initial events = Some st ->
  (exists page, App.renderContent st = Some page)
  /\ (App.theme st = "dark" \/ App.theme st = "light")
  /\ (forall results,
        App.renderContent st = Some (App.CrossCheckPage results) ->
        App.activeTab st = "crosscheck" /\ results = App.analysisResults st).
Proof.
  intros Hrun.
  destruct (shellInvariant_run events _ st shellInvariant_initial Hrun) as [Htab Htheme].
  assert (Hcases : App.activeTab st = "priority" \/ App.activeTab st = "crosscheck"
                   \/ App.activeTab st = "history").
  { cbn in Htab. repeat (apply elem_of_cons in Htab as [Htab | Htab]); auto.
    apply elem_of_nil in Htab. destruct Htab. }
  unfold App.renderContent.
  destruct Hcases as [Htab' | [Htab' | Htab']]; rewrite Htab'; cbn;
    (split; [eauto |]); (split; [exact Htheme |]); intros results H.
  - discriminate H.
  - injection H as <-. split; reflexivity.
  - discriminate H.
Qed.

Lemma shell_always_renders_a_page_witness :
  exists st,
    App.run App.initial
      [App.ToggleMenu; App.NavClick "history"; App.ToggleTheme] = Some st
    /\ App.renderContent st = Some App.HistoryPage
    /\ (App.theme st = "dark" \/ App.theme st = "light").
Proof.
  eexists. split; [reflexivity |]. split; [reflexivity |].
  eapply (proj1 (proj2 (shell_always_renders_a_page
    [App.ToggleMenu; App.NavClick "history"; App.ToggleTheme] _ eq_refl))).
Defined.

Lemma results_kept_step (st st' : App.State) (e : App.Event) :
  deliversResults e = false -> App.step st e = Some st' ->
  App.analysisResults st' = App.analysisResults st.
Proof.
  intros He Hstep. destruct e as [tabId | | | results]; unfold App.step in Hstep;
    [| | | discriminate He].
  - destruct (bool_decide _); [| discriminate Hstep]. injection Hstep as <-. reflexivity.
  - injection Hstep as <-. reflexivity.
  - injection Hstep as <-. reflexivity.
Qed.

(** X25. The results of the last analysis survive navigation: whatever tabs,
    menu and theme the user goes through afterwards, the shell keeps them,
    and coming back to the cross-check tab draws the dashboard from them. *)
Theorem results_survive_navigation
    (results : AnalysisResult) (events : list App.Event) (st st' : App.State) :
  forallb (fun e => negb (deliversResults e)) events = true ->
  App.run (App.handleAnalysisComplete results st) events = Some st' ->
  App.analysisResults st' = Some results
  /\ App.renderContent (App.handleNavClick "crosscheck" st')
     = Some (App.CrossCheckPage (Some results))
  /\ App.mobileMenuOpen (App.handleNavClick "crosscheck" st') = false.
Proof.
  intros Hquiet Hrun.
  assert (Hkept : App.analysisResults st' = Some results).
  { change (App.analysisResults st'
            = App.analysisResults (App.handleAnalysisComplete results st)).
    revert Hquiet Hrun. generalize (App.handleAnalysisComplete results st).
    induction events as [| e rest IH]; intros st0 Hquiet Hrun; cbn in Hrun, Hquiet.
    - injection Hrun as <-. reflexivity.
    - apply andb_true_iff in Hquiet as [He Hrest].
      destruct (App.step st0 e) as [st1 |] eqn:Hstep; [| discriminate Hrun].
      rewrite (IH st1 Hrest Hrun).
      apply (results_kept_step st0 st1 e); [| exact Hstep].
      destruct (deliversResults e); [discriminate He | reflexivity]. }
  split; [exact Hkept |].
  unfold App.renderContent. cbn. rewrite Hkept. split; reflexivity.
Qed.

Lemma results_survive_navigation_witness :
  let results := mkAnalysisResult [] "Sin diferencias" 100 in
  let events := [App.NavClick "history"; App.ToggleTheme; App.NavClick "priority"] in
  forallb (fun e => negb (deliversResults e)) events = true
  /\ exists st',
       App.run (App.handleAnalysisComplete results App.initial) events = Some st'
       /\ App.analysisResults st' = Some results.
Proof.
  cbn zeta. split; [reflexivity |].
  eexists. split; [reflexivity |].
  eapply (proj1 (results_survive_navigation
    (mkAnalysisResult [] "Sin diferencias" 100)
    [App.NavClick "history"; App.ToggleTheme; App.NavClick "priority"]
    App.initial _ eq_refl eq_refl)).
Defined.

(** X26. The theme switch is an involution on the two themes: two presses give
    back the theme, and each press flips the [dark] class of the page. *)
Theorem theme_toggle_involution (st : App.State) :
  App.theme st = "dark" \/ App.theme st = "light" ->
  App.toggleTheme (App.toggleTheme st) = st
  /\ App.darkClass (App.toggleTheme st) = negb (App.darkClass st).
Proof.
  intros Htheme. destruct st as [tab theme results menu]. cbn in Htheme.
  unfold App.toggleTheme, App.darkClass. cbn.
  destruct Htheme as [-> | ->]; split; reflexivity.
Qed.

Lemma theme_toggle_involution_witness :
  (App.theme App.initial = "dark" \/ App.theme App.initial = "light")
  /\ App.toggleTheme (App.toggleTheme App.initial) = App.initial.
Proof.
  split; [left; reflexivity |].
  apply (proj1 (theme_toggle_involution App.initial (or_introl eq_refl))).
Defined.

(** ** Witnesses of properties stated above *)

Lemma calm_sessions_are_fresh_witness :
  let r := mkPriorityResult 58 "Medium" "#eab308" [] "Revisar en el comité" in
  let events := [ProjectScorer.SliderChange "roi" 90; ProjectScorer.ClickCalculate;
                 ProjectScorer.Settle (Resolved r)] in
  exists s : ProjectScorer.Session,
    ProjectScorer.calmTrace ProjectScorer.start events s
    /\ ProjectScorer.result (ProjectScorer.ui s) = Some r
    /\ ProjectScorer.fresh s.
Proof.
  cbn zeta. eexists.
  assert (Hbuild : forall s s' e rest s'',
    ProjectScorer.step s e = Some s' ->
    (forall field value, e = ProjectScorer.SliderChange field value ->
                         ProjectScorer.inFlight s = None) ->
    ProjectScorer.calmTrace s' rest s'' -> ProjectScorer.calmTrace s (e :: rest) s'')
    by (intros; eapply ProjectScorer.calm_step; eassumption).
  split; [| split; [| eapply (calm_sessions_are_fresh
    [ProjectScorer.SliderChange "roi" 90; ProjectScorer.ClickCalculate;
     ProjectScorer.Settle
       (Resolved (mkPriorityResult 58 "Medium" "#eab308" [] "Revisar en el comité"))])]].
  - eapply Hbuild; [reflexivity | intros; reflexivity |].
    eapply Hbuild; [reflexivity | intros ? ? H; discriminate H |].
    eapply Hbuild; [reflexivity | intros ? ? H; discriminate H |].
    apply ProjectScorer.calm_done.
  - reflexivity.
  - eapply Hbuild; [reflexivity | intros; reflexivity |].
    eapply Hbuild; [reflexivity | intros ? ? H; discriminate H |].
    eapply Hbuild; [reflexivity | intros ? ? H; discriminate H |].
    apply ProjectScorer.calm_done.
Defined.

Lemma removeFile_blocks_analysis_witness :
  let st := CrossCheckView.setPptxFile (Some (mkFile "deck.pptx" 9))
              (CrossCheckView.setExcelFile (Some (mkFile "a.xlsx" 7))
                 CrossCheckView.initial) in
  "excel" = "excel"
  /\ CrossCheckView.excelFile (CrossCheckView.removeFile "excel" st) = None
  /\ CrossCheckView.pptxFile (CrossCheckView.removeFile "excel" st)
     = Some (mkFile "deck.pptx" 9).
Proof.
  cbn zeta. split; [reflexivity |].
  apply (proj1 (proj2 (proj2 (proj2 (proj2 (removeFile_blocks_analysis "excel"
    (CrossCheckView.setPptxFile (Some (mkFile "deck.pptx" 9))
       (CrossCheckView.setExcelFile (Some (mkFile "a.xlsx" 7))
          CrossCheckView.initial)))))))).
  reflexivity.
Defined.

Lemma value_grid_never_empty_witness :
  let item := mkDiscrepancy (VStr "media") (VStr "monto") (VStr "OPEX distinto")
                (VStr "") (VStr "340") in
  valuesOf item = Drawn (mkGrid (Skipped (VStr "")) (Drawn (VStr "340")))
  /\ (isDrawn (excelBox (mkGrid (Skipped (VStr "")) (Drawn (VStr "340"))))
      || isDrawn (pptxBox (mkGrid (Skipped (VStr "")) (Drawn (VStr "340")))))%bool = true.
Proof.
  cbn zeta. split; [reflexivity |].
  apply (proj1 (proj2 (value_grid_never_empty
    (mkDiscrepancy (VStr "media") (VStr "monto") (VStr "OPEX distinto")
       (VStr "") (VStr "340"))) _ eq_refl)).
Defined.
